(** * tce-serv: the trip-creation validator, the check-in creation and the
      readiness guard of [src/server.js], embedded in Rocq.

    The development follows the source top-down:
    - [Js]        the fragment of JavaScript values the handlers compute with
                  (numbers with NaN, truthiness, [split(':')], [Number]);
    - [Prisma]    the persistence layer as an in-memory store behind a small
                  state-and-exception monad that records every access;
    - [Handlers]  [POST /api/services-hierarchie] and [POST /api/pointages];
    - [Readiness] the middleware chain in front of the routes and the
                  [prismaReady] flag;
    - [Examples]  the worlds and requests of the specification's examples;
    - [Spec]      the vocabulary of the statements.
    - [Routes], [Updates], [Arrets], [Calendars], [DailyStats]
                  the other routes: [/health] and the two list routes,
                  the trip update, the stops, the default calendars and
                  the counters of the daily statistics, the last three
                  over [Client], the same monad over the other tables.
    The lemmas and the theorems, one per claim of the specification,
    come after the definitions. *)

From stdpp Require Import gmap strings list pretty.
From Stdlib Require Import ZArith Lia Ascii.

Local Open Scope Z_scope.

(* ===================================================================== *)
(** ** JavaScript values *)
(* ===================================================================== *)

Module Js.

(** A JavaScript number as the handlers use it: every arithmetic result in
    the validator is an integer or [NaN]. *)
Inductive num : Type :=
| NaN
| Num (z : Z).

Definition add (a b : num) : num :=
  match a, b with
  | Num x, Num y => Num (x + y)
  | _, _ => NaN
  end.

Definition sub (a b : num) : num :=
  match a, b with
  | Num x, Num y => Num (x - y)
  | _, _ => NaN
  end.

Definition mul (a b : num) : num :=
  match a, b with
  | Num x, Num y => Num (x * y)
  | _, _ => NaN
  end.

(** Every comparison with [NaN] is [false]. *)
Definition lt (a b : num) : bool :=
  match a, b with
  | Num x, Num y => x <? y
  | _, _ => false
  end.

Definition gt (a b : num) : bool := lt b a.

Definition le (a b : num) : bool :=
  match a, b with
  | Num x, Num y => x <=? y
  | _, _ => false
  end.

Definition ge (a b : num) : bool := le b a.

(** A request field or a nullable column: a string, or absent
    ([undefined] and [null] behave alike under [!x], [x || d] and [x ? a : b]). *)
Definition truthy (v : option string) : bool :=
  match v with
  | Some s => negb (String.eqb s "")
  | None => false
  end.

(** A [Date] object: its millisecond timestamp, or [None] for Invalid Date. *)
Definition date : Type := option Z.

(** [s.split(':')]. *)
Fixpoint split_colon (s : string) : list string :=
  match s with
  | EmptyString => [EmptyString]
  | String c rest =>
      if Ascii.eqb c ":"%char then EmptyString :: split_colon rest
      else match split_colon rest with
           | p :: ps => String c p :: ps
           | [] => [String c EmptyString]
           end
  end.

Definition digit_of (c : Ascii.ascii) : option Z :=
  let n := nat_of_ascii c in
  if ((48 <=? n) && (n <=? 57))%nat then Some (Z.of_nat (n - 48)) else None.

Fixpoint digits_val (acc : Z) (s : string) : option Z :=
  match s with
  | EmptyString => Some acc
  | String c rest =>
      match digit_of c with
      | Some d => digits_val (10 * acc + d) rest
      | None => None
      end
  end.

(** [Number(s)] on the pieces of a time of day: a run of decimal digits is
    its value and the empty string is [0].  Pieces written any other way
    (sign, fraction, exponent, blanks) are outside the fragment modelled
    here and are read as [NaN], and the value of a run of digits is kept
    exact, where the code rounds it to a double from 2^53 on.  On the
    pieces of a well-formed time ([is_HHMM]) the two agree, and the
    statements about parsed times are made there. *)
Definition Number (s : string) : num :=
  match digits_val 0 s with
  | Some z => Num z
  | None => NaN
  end.

(** [const [h, m] = s.split(':').map(Number); h * 60 + m].  A missing
    component is [undefined], which arithmetic turns into [NaN]. *)
Definition minutes_of (s : string) : num :=
  let parts := map Number (split_colon s) in
  add (mul (nth 0 parts NaN) (Num 60)) (nth 1 parts NaN).

(** The spec's "HH:MM": two digits, a colon, two digits, hour below 24 and
    minute below 60. *)
Definition is_HHMM (s : string) : bool :=
  match s with
  | String h1 (String h2 (String sep (String m1 (String m2 EmptyString)))) =>
      match digit_of h1, digit_of h2, digit_of m1, digit_of m2 with
      | Some a, Some b, Some c, Some d =>
          Ascii.eqb sep ":"%char && (10 * a + b <? 24) && (10 * c + d <? 60)
      | _, _, _, _ => false
      end
  | _ => false
  end.

End Js.

(* ===================================================================== *)
(** ** The persistence layer *)
(* ===================================================================== *)

Module Prisma.

(** Rows.  Only the columns the two handlers read or write are kept; a
    date is the millisecond timestamp of a JavaScript [Date]. *)
Record Ligne : Type := mkLigne {
  ligne_id : string;
  ligne_heureDebut : option string;
  ligne_heureFin : option string
}.

Record Service : Type := mkService {
  service_id : string;
  service_sensId : option string;
  service_ligneId : option string;
  service_heureDebut : string;
  service_heureFin : string;
  service_statut : string;
  service_date : Z
}.

Record Pointage : Type := mkPointage {
  pointage_id : string;
  pointage_serviceId : string;
  pointage_conducteurId : string;
  pointage_validatedBy : string;
  pointage_vehicleType : option string;
  pointage_permisChecked : bool;
  pointage_chronometerChecked : bool
}.

(** The stored state: lines by primary key, trips and check-ins as tables
    in insertion order. *)
Record Db : Type := mkDb {
  lignes : gmap string Ligne;
  services : list Service;
  pointages : list Pointage
}.

(** One entry per call of the client, in call order. *)
Inductive Access : Type :=
| LigneFindUnique
| ServiceFindFirst
| ServiceCreate
| ServiceUpdate
| PointageCreate.

Definition is_write (a : Access) : bool :=
  match a with
  | ServiceCreate | ServiceUpdate | PointageCreate => true
  | LigneFindUnique | ServiceFindFirst => false
  end.

(** What a handler runs against: the store, the storage failures that
    will strike the coming calls ([true] makes that call reject, an
    exhausted plan means no failure), the calls made so far and the
    time [new Date()] returns. *)
Record World : Type := mkWorld {
  db : Db;
  faults : list bool;
  log : list Access;
  clock : Z
}.

(** The outcome of an awaited call: a value, or a rejection carrying the
    text [String(e)] renders. *)
Inductive Result (A : Type) : Type :=
| Ok (a : A)
| Throw (e : string).
Arguments Ok {A} a.
Arguments Throw {A} e.

Definition M (A : Type) : Type := World → Result A * World.

Definition ret {A} (a : A) : M A := fun w => (Ok a, w).

Definition bind {A B} (m : M A) (k : A → M B) : M B :=
  fun w =>
    match m w with
    | (Ok a, w') => k a w'
    | (Throw e, w') => (Throw e, w')
    end.

(** [try { ... } catch (e) { ... }] around a whole handler body: the
    store keeps whatever the body did before it threw. *)
Definition try_catch {A} (m : M A) (handler : string → A) : World → A * World :=
  fun w =>
    match m w with
    | (Ok a, w') => (a, w')
    | (Throw e, w') => (handler e, w')
    end.

(** [new Date()]. *)
Definition now : M Js.date := fun w => (Ok (Some (clock w)), w).

(** A call of the client: it is logged, it consumes one entry of the
    failure plan, and unless that entry strikes it runs [op] on the store. *)
Definition call {A} (a : Access) (op : Db → Result A * Db) : M A :=
  fun w =>
    let log' := log w ++ [a] in
    match faults w with
    | true :: fs =>
        (Throw "PrismaClientKnownRequestError",
         mkWorld (db w) fs log' (clock w))
    | _ =>
        let (r, d) := op (db w) in
        (r, mkWorld d (tail (faults w)) log' (clock w))
    end.

(** [prisma.ligne.findUnique({ where: { id } })]: the client refuses a
    unique lookup whose key is [undefined]. *)
Definition ligne_findUnique (id : option string) : M (option Ligne) :=
  call LigneFindUnique (fun d =>
    match id with
    | None => (Throw "PrismaClientValidationError", d)
    | Some i => (Ok (lignes d !! i), d)
    end).

(** The [where] of the duplicate lookup.  A filter whose value is
    [undefined] is no filter at all. *)
Record ServiceWhere : Type := mkServiceWhere {
  where_sensId : string;
  where_date : option Js.date;
  where_heureDebut : string;
  where_heureFin : string
}.

Definition service_matches (q : ServiceWhere) (s : Service) : bool :=
  bool_decide (service_sensId s = Some (where_sensId q))
  && match where_date q with
     | Some (Some t) => service_date s =? t
     | Some None => false
     | None => true
     end
  && String.eqb (service_heureDebut s) (where_heureDebut q)
  && String.eqb (service_heureFin s) (where_heureFin q).

(** [prisma.service.findFirst({ where })].  An Invalid Date in the filter
    is refused by the client. *)
Definition service_findFirst (q : ServiceWhere) : M (option Service) :=
  call ServiceFindFirst (fun d =>
    match where_date q with
    | Some None => (Throw "PrismaClientValidationError", d)
    | _ => (Ok (find (service_matches q) (services d)), d)
    end).

Definition fresh_id (n : nat) : string := String.append "id" (pretty n).

(** [prisma.service.create({ data })]: one new row, returned with the key
    the store gave it. *)
Definition service_create (sens : string) (ligne : option string)
    (debut fin statut : string) (date : Js.date) : M Service :=
  call ServiceCreate (fun d =>
    match date with
    | None => (Throw "PrismaClientValidationError", d)
    | Some t =>
        let s := mkService (fresh_id (length (services d))) (Some sens) ligne
                           debut fin statut t in
        (Ok s, mkDb (lignes d) (services d ++ [s]) (pointages d))
    end).

Fixpoint update_row (id : string) (f : Service → Service) (l : list Service)
  : option (Service * list Service) :=
  match l with
  | [] => None
  | s :: rest =>
      if String.eqb (service_id s) id then Some (f s, f s :: rest)
      else match update_row id f rest with
           | Some (s', rest') => Some (s', s :: rest')
           | None => None
           end
  end.

Definition set_statut (st : string) (s : Service) : Service :=
  mkService (service_id s) (service_sensId s) (service_ligneId s)
            (service_heureDebut s) (service_heureFin s) st (service_date s).

(** [prisma.service.update({ where: { id }, data: { statut } })]: rejects
    when no row has that key. *)
Definition service_update_statut (id st : string) : M Service :=
  call ServiceUpdate (fun d =>
    match update_row id (set_statut st) (services d) with
    | Some (s, l) => (Ok s, mkDb (lignes d) l (pointages d))
    | None => (Throw "Record to update not found", d)
    end).

(** [prisma.pointage.create({ data })]. *)
Definition pointage_create (service conducteur validatedBy : string)
    (vehicleType : option string) (permis chrono : bool) : M Pointage :=
  call PointageCreate (fun d =>
    let p := mkPointage (fresh_id (length (pointages d))) service conducteur
                        validatedBy vehicleType permis chrono in
    (Ok p, mkDb (lignes d) (services d) (pointages d ++ [p]))).

End Prisma.

(** [const x = await m; k]. *)
Notation "'await' x ':=' m 'in' k" := (Prisma.bind m (fun x => k))
  (at level 10, x name, m at level 100, k at level 200, only parsing).

(* ===================================================================== *)
(** ** The two handlers *)
(* ===================================================================== *)

Module Handlers.
Import Prisma.

Inductive Payload : Type :=
| ErrorJson (error : string)
| MissingJson (error : string) (missing : list string)
| ServiceJson (s : Service) (duplicate : bool)
| PointageJson (p : Pointage).

Record Response : Type := mkResponse { status : Z; payload : Payload }.

(** [res.status(400).json({ error })] and [res.json(x)]. *)
Definition bad_request (msg : string) : Response := mkResponse 400 (ErrorJson msg).
Definition json (p : Payload) : Response := mkResponse 200 p.

(** The body of [POST /api/services-hierarchie]. *)
Record ServiceBody : Type := mkServiceBody {
  sensId : option string;
  ligneId : option string;
  heureDebut : option string;
  heureFin : option string;
  date : option string;
  statut : option string
}.

(** The text of a field already known to be present. *)
Definition text (v : option string) : string :=
  match v with
  | Some s => s
  | None => EmptyString
  end.

Definition msg_missing : string := "Missing fields: sensId, heureDebut, heureFin".
Definition msg_too_long : string :=
  "Service duration exceeds 10 hours (from depot departure to return to depot)".
Definition msg_end_before_start : string := "End time must be after start time".
Definition msg_start_outside (l : Ligne) : string :=
  String.append "Service must start between "
    (String.append (text (ligne_heureDebut l))
       (String.append " and "
          (String.append (text (ligne_heureFin l)) " (next day)"))).
Definition msg_end_after (l : Ligne) : string :=
  String.append "Service cannot end after " (text (ligne_heureFin l)).
Definition msg_start_before (l : Ligne) : string :=
  String.append "Service must start at or after " (text (ligne_heureDebut l)).
Definition msg_end_late (l : Ligne) : string :=
  String.append "Service must end before or at " (text (ligne_heureFin l)).

(** [let dureeService = minutesFin - minutesDebut;
     if (dureeService < 0) dureeService = (1440 - minutesDebut) + minutesFin;] *)
Definition dureeService (minutesDebut minutesFin : Js.num) : Js.num :=
  let d := Js.sub minutesFin minutesDebut in
  if Js.lt d (Js.Num 0)
  then Js.add (Js.sub (Js.Num 1440) minutesDebut) minutesFin
  else d.

(** The two duration guards, in source order. *)
Definition duration_error (minutesDebut minutesFin : Js.num) : option string :=
  let d := dureeService minutesDebut minutesFin in
  if Js.gt d (Js.Num 600) then Some msg_too_long
  else if Js.le d (Js.Num 0) then Some msg_end_before_start
  else None.

(** The operating-window block: [None] when the trip goes on to the
    duplicate lookup, the message of the [400] otherwise. *)
Definition window_error (ligne : option Ligne) (minutesDebut minutesFin : Js.num)
  : option string :=
  match ligne with
  | Some l =>
      if Js.truthy (ligne_heureDebut l) && Js.truthy (ligne_heureFin l) then
        let minutesLigneDebut := Js.minutes_of (text (ligne_heureDebut l)) in
        let minutesLigneFin := Js.minutes_of (text (ligne_heureFin l)) in
        let lignePasseMinuit := Js.lt minutesLigneFin minutesLigneDebut in
        if lignePasseMinuit then
          let depasse :=
            if Js.gt minutesFin minutesLigneFin
               && Js.ge minutesDebut minutesLigneDebut
               && Js.lt minutesFin minutesDebut
            then Some (msg_end_after l)
            else None in
          if Js.ge minutesDebut minutesLigneDebut then depasse
          else if Js.le minutesDebut minutesLigneFin then depasse
          else Some (msg_start_outside l)
        else
          if Js.lt minutesDebut minutesLigneDebut then Some (msg_start_before l)
          else if Js.gt minutesFin minutesLigneFin then Some (msg_end_late l)
          else None
      else None
  | None => None
  end.

Section WithDate.

(** [new Date(s)], the host's date parser. *)
Variable new_Date : string → Js.date.

(** [app.post('/api/services-hierarchie', ...)]. *)
Definition post_services_hierarchie (b : ServiceBody) : World → Response * World :=
  try_catch
    (if negb (Js.truthy (sensId b)) || negb (Js.truthy (heureDebut b))
        || negb (Js.truthy (heureFin b))
     then ret (bad_request msg_missing)
     else
       let minutesDebut := Js.minutes_of (text (heureDebut b)) in
       let minutesFin := Js.minutes_of (text (heureFin b)) in
       match duration_error minutesDebut minutesFin with
       | Some msg => ret (bad_request msg)
       | None =>
           await ligne := ligne_findUnique (ligneId b) in
           match window_error ligne minutesDebut minutesFin with
           | Some msg => ret (bad_request msg)
           | None =>
               await existing :=
                 service_findFirst
                   (mkServiceWhere (text (sensId b))
                      (if Js.truthy (date b) then Some (new_Date (text (date b)))
                       else None)
                      (text (heureDebut b)) (text (heureFin b))) in
               match existing with
               | Some s => ret (json (ServiceJson s true))
               | None =>
                   await today := now in
                   await service :=
                     service_create (text (sensId b)) (ligneId b)
                       (text (heureDebut b)) (text (heureFin b))
                       (if Js.truthy (statut b) then text (statut b)
                        else "Planifiée")
                       (if Js.truthy (date b) then new_Date (text (date b))
                        else today) in
                   ret (json (ServiceJson service false))
               end
           end
       end)
    bad_request.

End WithDate.

(** The body of [POST /api/pointages]. *)
Record PointageBody : Type := mkPointageBody {
  serviceId : option string;
  conducteurId : option string;
  validatedBy : option string;
  vehicleType : option string;
  permisChecked : option bool;
  chronometerChecked : option bool
}.

(** [const missing = []; if (!b.x) missing.push('x'); ...]. *)
Definition missing (b : PointageBody) : list string :=
  (if Js.truthy (serviceId b) then [] else ["serviceId"%string])
  ++ (if Js.truthy (conducteurId b) then [] else ["conducteurId"%string])
  ++ (if Js.truthy (validatedBy b) then [] else ["validatedBy"%string]).

(** [app.post('/api/pointages', ...)]. *)
Definition post_pointages (b : PointageBody) : World → Response * World :=
  try_catch
    (match missing b with
     | _ :: _ =>
         ret (mkResponse 400 (MissingJson "Champs requis manquants" (missing b)))
     | [] =>
         await updatedService :=
           service_update_statut (text (serviceId b)) "Terminée" in
         await pointage :=
           pointage_create (text (serviceId b)) (text (conducteurId b))
             (text (validatedBy b))
             (if Js.truthy (vehicleType b) then vehicleType b else None)
             (default false (permisChecked b))
             (default false (chronometerChecked b)) in
         ret (mkResponse 201 (PointageJson pointage))
     end)
    bad_request.

End Handlers.

(* ===================================================================== *)
(** ** The readiness guard *)
(* ===================================================================== *)

Module Readiness.

Record Request : Type := mkRequest { method : string; path : string }.

(** What a middleware does with a request: answer it with a status, or
    call [next()]. *)
Inductive Outcome : Type :=
| Respond (status : Z)
| Next.

Definition Middleware : Type := Request → Outcome.

(** The second [app.use]: CORS headers, and preflights answered at once. *)
Definition cors_headers : Middleware :=
  fun req => if String.eqb (method req) "OPTIONS" then Respond 200 else Next.

Definition noDbPaths : gset string :=
  {[ "/"; "/health"; "/api/today"; "/api/server-time"; "/api/cors-test" ]}%string.

(** The fourth [app.use]: short-circuit while the store is not ready. *)
Definition db_guard (prismaReady : bool) : Middleware :=
  fun req =>
    if negb prismaReady && negb (bool_decide (path req ∈ noDbPaths))
    then Respond 503
    else Next.

(** Express runs the stack in registration order until one answers. *)
Fixpoint run_stack (stack : list Middleware) (req : Request) : Outcome :=
  match stack with
  | [] => Next
  | m :: rest =>
      match m req with
      | Respond st => Respond st
      | Next => run_stack rest req
      end
  end.

Section App.

(** [cors(corsOptions)] and [express.json()], the two middlewares that
    come from packages. *)
Variables cors_package express_json : Middleware.

(** Everything registered before the first route.  [Next] means the
    request goes on to the route handlers. *)
Definition before_routes (prismaReady : bool) : Middleware :=
  run_stack [cors_package; cors_headers; express_json; db_guard prismaReady].

End App.

(** The [cors] package with the options of the source
    ([optionsSuccessStatus: 200], no [preflightContinue]): a preflight is
    answered, anything else passes. *)
Definition cors_with_options : Middleware :=
  fun req => if String.eqb (method req) "OPTIONS" then Respond 200 else Next.

(** [express.json()] on a request whose body it accepts. *)
Definition json_accepts : Middleware := fun _ => Next.

(** The two module-level variables [prisma] (was the client constructed)
    and [prismaReady]. *)
Record Process : Type := mkProcess { prisma : bool; prismaReady : bool }.

(** Module load: [let prismaReady = false] and the guarded construction. *)
Definition load (constructed : bool) : Process := mkProcess constructed false.

(** [startServer()] up to [app.listen]: [probe] tells whether
    [SELECT 1] answered before the five-second timer. *)
Definition startServer (probe : bool) (p : Process) : Process :=
  if prisma p then
    if probe then mkProcess (prisma p) true else p
  else p.

Inductive Event : Type :=
| Start (probe : bool)
| Incoming (req : Request).

(** No handler and no middleware assigns [prismaReady]. *)
Definition step (p : Process) (e : Event) : Process :=
  match e with
  | Start probe => startServer probe p
  | Incoming _ => p
  end.

(** The life of the process: load, one [startServer()], then requests. *)
Definition run (constructed probe : bool) (reqs : list Request) : Process :=
  fold_left step (map Incoming reqs) (step (load constructed) (Start probe)).

End Readiness.

(* ===================================================================== *)
(** ** Sample worlds and requests *)
(* ===================================================================== *)

Module Examples.
Import Prisma Handlers.

(** A store holding Line [L1] with the given operating window and the
    given trips, no storage failure ahead. *)
Definition world_with_line (debut fin : string) (trips : list Service) : World :=
  mkWorld (mkDb {[ "L1"%string := mkLigne "L1" (Some debut) (Some fin) ]} trips [])
          [] [] 1735689600000.

(** A request for a trip of direction [S1] on Line [L1]. *)
Definition trip (debut fin : string) (day : option string) : ServiceBody :=
  mkServiceBody (Some "S1"%string) (Some "L1"%string) (Some debut) (Some fin)
                day None.

(** A stored trip of direction [S1], 09:00 to 10:00, dated 31 December
    2024, the day before the clock of [world_with_line]. *)
Definition yesterdays_trip : Service :=
  mkService "id0" (Some "S1"%string) (Some "L1"%string) "09:00" "10:00"
            "Planifiée" 1735603200000.

(** A trip of direction [S1] planned for 1 January 2025, a store that
    holds it and will answer one call and reject the next, and a check-in
    request for it. *)
Definition planned_trip : Service :=
  mkService "id0" (Some "S1"%string) (Some "L1"%string) "09:00" "10:00"
            "Planifiée" 1735689600000.

Definition checkin_world : World :=
  mkWorld (mkDb ∅ [planned_trip] []) [false; true] [] 1735689600000.

Definition checkin : PointageBody :=
  mkPointageBody (Some "id0"%string) (Some "c1"%string) (Some "Régulateur"%string)
                 None None None.

(** A host date parser that reads every text as the same instant. *)
Definition epoch (_ : string) : Js.date := Some 0.

End Examples.

(* ===================================================================== *)
(** ** Vocabulary of the statements *)
(* ===================================================================== *)

Module Spec.
Import Prisma Handlers.

(** The three required fields of a trip-creation request are present. *)
Definition required (b : ServiceBody) : bool :=
  Js.truthy (sensId b) && Js.truthy (heureDebut b) && Js.truthy (heureFin b).

(** The two times of a request, in minutes. *)
Definition minutesDebut (b : ServiceBody) : Js.num := Js.minutes_of (text (heureDebut b)).
Definition minutesFin (b : ServiceBody) : Js.num := Js.minutes_of (text (heureFin b)).

(** The filter of the duplicate lookup, as the handler builds it. *)
Definition duplicate_where (new_Date : string → Js.date) (b : ServiceBody) : ServiceWhere :=
  mkServiceWhere (text (sensId b))
    (if Js.truthy (date b) then Some (new_Date (text (date b))) else None)
    (text (heureDebut b)) (text (heureFin b)).

(** The date a created row gets: the request's, or the current instant. *)
Definition resolved_date (new_Date : string → Js.date) (b : ServiceBody) (w : World) : Js.date :=
  if Js.truthy (date b) then new_Date (text (date b)) else Some (clock w).

(** The scheduling key of a stored trip. *)
Definition same_key (sens : string) (day : Z) (debut fin : string) (s : Service) : Prop :=
  service_sensId s = Some sens ∧ service_date s = day
  ∧ service_heureDebut s = debut ∧ service_heureFin s = fin.

(** The messages of the validator: the four of the window block, and
    all seven. *)
Definition window_message (l : Ligne) (msg : string) : Prop :=
  msg = msg_start_outside l ∨ msg = msg_end_after l
  ∨ msg = msg_start_before l ∨ msg = msg_end_late l.


(** The request got through the three validation stages: its Line lookup
    was answered and the window block let it through. *)
Definition passes_validation (b : ServiceBody) (w : World) : Prop :=
  required b = true
  ∧ duration_error (minutesDebut b) (minutesFin b) = None
  ∧ ∃ ligne, fst (ligne_findUnique (ligneId b) w) = Ok ligne
             ∧ window_error ligne (minutesDebut b) (minutesFin b) = None.

(** Rejections raised by the client, as opposed to validator messages. *)
Definition store_rejection (e : string) : Prop :=
  e = "PrismaClientKnownRequestError"%string
  ∨ e = "PrismaClientValidationError"%string
  ∨ e = "Record to update not found"%string.

(** The handler past each of its awaits, as functions of what the awaited
    call returned. *)
Definition after_create (r : Result Service * World) : Response * World :=
  match r with
  | (Ok s, w3) => (json (ServiceJson s false), w3)
  | (Throw e, w3) => (bad_request e, w3)
  end.

Definition after_duplicate_lookup (new_Date : string → Js.date) (b : ServiceBody)
    (r : Result (option Service) * World) : Response * World :=
  match r with
  | (Ok (Some s), w2) => (json (ServiceJson s true), w2)
  | (Ok None, w2) =>
      after_create
        (service_create (text (sensId b)) (ligneId b) (text (heureDebut b))
           (text (heureFin b))
           (if Js.truthy (statut b) then text (statut b) else "Planifiée")
           (resolved_date new_Date b w2) w2)
  | (Throw e, w2) => (bad_request e, w2)
  end.

Definition after_lookup (new_Date : string → Js.date) (b : ServiceBody)
    (r : Result (option Ligne) * World) : Response * World :=
  match r with
  | (Ok ligne, w1) =>
      match window_error ligne (minutesDebut b) (minutesFin b) with
      | Some msg => (bad_request msg, w1)
      | None =>
          after_duplicate_lookup new_Date b
            (service_findFirst (duplicate_where new_Date b) w1)
      end
  | (Throw e, w1) => (bad_request e, w1)
  end.

(** Proof steps shared by the path lemmas of the trip-creation handler. *)
Ltac unfold_handler :=
  unfold post_services_hierarchie, try_catch, bind, ret, now.

Ltac required_true H :=
  unfold required in H;
  destruct (Js.truthy (sensId _)), (Js.truthy (heureDebut _)),
    (Js.truthy (heureFin _)); try discriminate H; cbn [negb orb].

End Spec.


(* ===================================================================== *)
(** ** The routes that look at the readiness flag themselves *)
(* ===================================================================== *)

Module Routes.
Import Readiness.

(** [app.get('/health', ...)]: the status it answers, given whether the
    client was constructed and whether [SELECT 1] came back. *)
Definition health (p : Process) (select1 : bool) : Z :=
  if negb (prisma p) then 503
  else if select1 then 200 else 503.

(** How a request for [GET /api/conducteurs] or [GET /api/services] ends. *)
Inductive Reply : Type :=
| ByMiddleware (status : Z)
| NotReady503
| Listed200
| QueryFailed400.

(** The handler of the two list routes: its own look at [prismaReady],
    then [findMany], whose outcome is [found]. *)
Definition list_handler (prismaReady found : bool) : Reply :=
  if negb prismaReady then NotReady503
  else if found then Listed200 else QueryFailed400.

Section App.

Variables cors_package express_json : Middleware.

(** A request for one of the two list routes, through the stack. *)
Definition get_list (prismaReady found : bool) (req : Request) : Reply :=
  match before_routes cors_package express_json prismaReady req with
  | Respond st => ByMiddleware st
  | Next => list_handler prismaReady found
  end.

End App.

End Routes.

(* ===================================================================== *)
(** ** Trip update *)
(* ===================================================================== *)

Module Updates.
Import Prisma Handlers.

(** The body of [PUT /api/services-hierarchie/:id].  [conducteurId] is
    sent on to the store as the other three are, to a column the rows of
    [Prisma.Service] do not keep. *)
Record ServiceUpdateBody : Type := mkServiceUpdateBody {
  heureDebut : option string;
  heureFin : option string;
  conducteurId : option string;
  statut : option string
}.

(** [data]: a field that is [null] or [undefined] becomes [undefined]
    under [??] and leaves its column alone. *)
Definition patch (b : ServiceUpdateBody) (s : Service) : Service :=
  mkService (service_id s) (service_sensId s) (service_ligneId s)
            (default (service_heureDebut s) (heureDebut b))
            (default (service_heureFin s) (heureFin b))
            (default (service_statut s) (statut b))
            (service_date s).

(** [prisma.service.update({ where: { id }, data })]. *)
Definition service_update (id : string) (b : ServiceUpdateBody) : M Service :=
  call ServiceUpdate (fun d =>
    match update_row id (patch b) (services d) with
    | Some (s, l) => (Ok s, mkDb (lignes d) l (pointages d))
    | None => (Throw "Record to update not found", d)
    end).

(** [app.put('/api/services-hierarchie/:id', ...)]. *)
Definition put_services_hierarchie (id : string) (b : ServiceUpdateBody)
  : World → Response * World :=
  try_catch
    (await service := service_update id b in
     ret (json (ServiceJson service false)))
    bad_request.

End Updates.

(* ===================================================================== *)
(** ** The client over the other tables *)
(* ===================================================================== *)

Module Client.

Section Generic.

(** [D] is the stored state a handler works on, [C] the names of the
    calls it can make. *)
Variables D C : Type.

(** As [Prisma.World]: the store, the storage failures ahead and the
    calls made so far. *)
Record World : Type := mkWorld {
  store : D;
  plan : list bool;
  calls : list C
}.

Definition M (A : Type) : Type := World → Prisma.Result A * World.

Definition ret {A} (a : A) : M A := fun w => (Prisma.Ok a, w).

Definition bind {A B} (m : M A) (k : A → M B) : M B :=
  fun w =>
    match m w with
    | (Prisma.Ok a, w') => k a w'
    | (Prisma.Throw e, w') => (Prisma.Throw e, w')
    end.

Definition try_catch {A} (m : M A) (handler : string → A) : World → A * World :=
  fun w =>
    match m w with
    | (Prisma.Ok a, w') => (a, w')
    | (Prisma.Throw e, w') => (handler e, w')
    end.

Definition call {A} (c : C) (op : D → Prisma.Result A * D) : M A :=
  fun w =>
    match plan w with
    | true :: fs =>
        (Prisma.Throw "PrismaClientKnownRequestError",
         mkWorld (store w) fs (calls w ++ [c]))
    | _ =>
        let (r, d) := op (store w) in
        (r, mkWorld d (tail (plan w)) (calls w ++ [c]))
    end.

End Generic.

Arguments mkWorld {D C} store plan calls.
Arguments store {D C} w.
Arguments plan {D C} w.
Arguments calls {D C} w.
Arguments ret {D C A} a w.
Arguments bind {D C A B} m k w.
Arguments try_catch {D C A} m handler w.
Arguments call {D C A} c op w.

End Client.

(* ===================================================================== *)
(** ** Stops *)
(* ===================================================================== *)

Module Arrets.

Record Arret : Type := mkArret {
  arret_id : string;
  arret_trajetId : string;
  arret_nom : string;
  arret_adresse : option string;
  arret_ordre : Z;
  arret_tempsArriveeAntecedent : Z
}.

Inductive Call : Type :=
| ArretAggregate
| ArretCreate.

Definition World : Type := Client.World (list Arret) Call.

(** The body of [POST /api/arrets]; the two numbers are integers or
    absent. *)
Record ArretBody : Type := mkArretBody {
  trajetId : option string;
  nom : option string;
  adresse : option string;
  ordre : option Z;
  tempsArriveeAntecedent : option Z
}.

Inductive Reply : Type :=
| ArretJson (a : Arret)
| ErrorJson (status : Z) (error : string).

(** [prisma.arret.aggregate({ where: { trajetId }, _max: { ordre: true } })]:
    the greatest [ordre] among the stops of the itinerary, [null] when it
    has none. *)
Definition max_ordre (trajet : string) (l : list Arret) : option Z :=
  fold_left
    (fun acc a =>
       if String.eqb (arret_trajetId a) trajet then
         match acc with
         | Some m => Some (Z.max m (arret_ordre a))
         | None => Some (arret_ordre a)
         end
       else acc)
    l None.

Definition arret_aggregate_max (trajet : string) : Client.M (list Arret) Call (option Z) :=
  Client.call ArretAggregate (fun d => (Prisma.Ok (max_ordre trajet d), d)).

(** [prisma.arret.create({ data })]. *)
Definition arret_create (trajet nom : string) (adresse : option string)
    (ordre temps : Z) : Client.M (list Arret) Call Arret :=
  Client.call ArretCreate (fun d =>
    let a := mkArret (Prisma.fresh_id (length d)) trajet nom adresse ordre temps in
    (Prisma.Ok a, d ++ [a])).

(** [x || 0] on a number. *)
Definition or_zero (x : option Z) : Z :=
  match x with
  | Some z => z
  | None => 0
  end.

(** [app.post('/api/arrets', ...)]. *)
Definition post_arrets (b : ArretBody) : World → Reply * World :=
  Client.try_catch
    (if negb (Js.truthy (trajetId b)) || negb (Js.truthy (nom b))
     then Client.ret (ErrorJson 400 "Missing fields: trajetId, nom")
     else
       Client.bind
         (match ordre b with
          | Some o => Client.ret o
          | None =>
              Client.bind (arret_aggregate_max (Handlers.text (trajetId b)))
                (fun maxOrdre => Client.ret (or_zero maxOrdre + 1))
          end)
         (fun ordre =>
            Client.bind
              (arret_create (Handlers.text (trajetId b)) (Handlers.text (nom b))
                 (if Js.truthy (adresse b) then adresse b else None)
                 ordre (or_zero (tempsArriveeAntecedent b)))
              (fun arret => Client.ret (ArretJson arret))))
    (ErrorJson 400).

(** The requests of a list, one after the other, each on the world the
    one before left. *)
Definition post_arrets_all (bs : list ArretBody) (w : World) : World :=
  fold_left (fun w b => snd (post_arrets b w)) bs w.

(** The [ordre]s of the stops of an itinerary, in stored order. *)
Definition ordres (trajet : string) (l : list Arret) : list Z :=
  map arret_ordre (List.filter (fun a => String.eqb (arret_trajetId a) trajet) l).

End Arrets.

(* ===================================================================== *)
(** ** Default calendars *)
(* ===================================================================== *)

Module Calendars.

(** A Line as [POST /api/lignes/init-calendars] sees it: its key and its
    calendar. *)
Record Ligne : Type := mkLigne {
  ligne_id : string;
  ligne_calendrierJson : option string
}.

Inductive Call : Type :=
| LigneFindMany
| LigneUpdate.

Definition World : Type := Client.World (list Ligne) Call.

Inductive Reply : Type :=
| InitJson (message : string)
| ErrorJson (status : Z) (error : string).

Section Json.

(** [JSON.stringify(defaultCalendar)]. *)
Variable defaultCalendarJson : string.

(** [prisma.ligne.findMany()]. *)
Definition ligne_findMany : Client.M (list Ligne) Call (list Ligne) :=
  Client.call LigneFindMany (fun d => (Prisma.Ok d, d)).

Fixpoint set_calendrier (id : string) (l : list Ligne) : option (list Ligne) :=
  match l with
  | [] => None
  | x :: rest =>
      if String.eqb (ligne_id x) id
      then Some (mkLigne (ligne_id x) (Some defaultCalendarJson) :: rest)
      else match set_calendrier id rest with
           | Some rest' => Some (x :: rest')
           | None => None
           end
  end.

(** [prisma.ligne.update({ where: { id }, data: { calendrierJson } })]. *)
Definition ligne_update (id : string) : Client.M (list Ligne) Call unit :=
  Client.call LigneUpdate (fun d =>
    match set_calendrier id d with
    | Some d' => (Prisma.Ok tt, d')
    | None => (Prisma.Throw "Record to update not found", d)
    end).

(** [for (const ligne of lignes) { if (!ligne.calendrierJson) { await
    update; updatedCount++; } }]. *)
Fixpoint init_loop (lignes : list Ligne) (updatedCount : nat)
  : Client.M (list Ligne) Call nat :=
  match lignes with
  | [] => Client.ret updatedCount
  | ligne :: rest =>
      if Js.truthy (ligne_calendrierJson ligne) then init_loop rest updatedCount
      else Client.bind (ligne_update (ligne_id ligne))
             (fun _ => init_loop rest (S updatedCount))
  end.

Definition message (updatedCount : nat) : string :=
  String.append (pretty updatedCount)
    " ligne(s) mise(s) à jour avec un calendrier par défaut".

(** [app.post('/api/lignes/init-calendars', ...)]. *)
Definition post_init_calendars : World → Reply * World :=
  Client.try_catch
    (Client.bind ligne_findMany (fun lignes =>
     Client.bind (init_loop lignes 0) (fun updatedCount =>
     Client.ret (InitJson (message updatedCount)))))
    (ErrorJson 400).

(** A Line after a complete run. *)
Definition with_calendar (x : Ligne) : Ligne :=
  if Js.truthy (ligne_calendrierJson x) then x
  else mkLigne (ligne_id x) (Some defaultCalendarJson).

End Json.

(** The Line has no calendar yet. *)
Definition lacks_calendar (x : Ligne) : bool :=
  negb (Js.truthy (ligne_calendrierJson x)).

End Calendars.

(* ===================================================================== *)
(** ** Daily statistics *)
(* ===================================================================== *)

Module DailyStats.

(** The rows [GET /api/pointages/stats/daily] fetches, with the relations
    it includes and the columns it reads.  The objects it fills are maps
    from their keys to their own properties.  The keys of
    [conductorStats] are the keys of stored conductors; those of the
    other objects are free text, and for them the properties an object
    inherits are modelled too ([inherited]). *)
Record Conducteur : Type := mkConducteur {
  conducteur_nom : option string;
  conducteur_prenom : option string
}.

Record Ligne : Type := mkLigne { ligne_numero : option string }.

Record Service : Type := mkService {
  service_heureDebut : option string;
  service_ligne : option Ligne
}.

Record Pointage : Type := mkPointage {
  pointage_conducteurId : string;
  pointage_conducteur : option Conducteur;
  pointage_permisChecked : bool;
  pointage_chronometerChecked : bool;
  pointage_vehicleType : option string;
  pointage_validatedBy : option string;
  pointage_service : option Service
}.

(** [x || d] on a text. *)
Definition or_text (x : option string) (d : string) : string :=
  if Js.truthy x then Handlers.text x else d.

(** An entry of [conductorStats]. *)
Record ConductorStat : Type := mkConductorStat {
  stat_id : string;
  stat_nom : string;
  stat_prenom : string;
  stat_pointages : nat;
  stat_permisChecked : nat;
  stat_chronometerChecked : nat;
  stat_avgValidationTime : nat
}.

(** The body of the first [pointages.forEach]. *)
Definition count_conductor (conductorStats : gmap string ConductorStat)
    (p : Pointage) : gmap string ConductorStat :=
  let cid := pointage_conducteurId p in
  let entry :=
    match conductorStats !! cid with
    | Some e => e
    | None =>
        mkConductorStat cid
          (or_text (c ← pointage_conducteur p; conducteur_nom c) "Inconnu")
          (or_text (c ← pointage_conducteur p; conducteur_prenom c) "")
          0 0 0 0
    end in
  <[cid := mkConductorStat (stat_id entry) (stat_nom entry) (stat_prenom entry)
             (S (stat_pointages entry))
             (if pointage_permisChecked p then S (stat_permisChecked entry)
              else stat_permisChecked entry)
             (if pointage_chronometerChecked p
              then S (stat_chronometerChecked entry)
              else stat_chronometerChecked entry)
             (stat_avgValidationTime entry)]> conductorStats.

Definition conductorStats (pointages : list Pointage) : gmap string ConductorStat :=
  fold_left count_conductor pointages ∅.

(** [Object.values(m).reduce((sum, c) => sum + f(c), 0)]. *)
Definition sum_values {V} (f : V → nat) (m : gmap string V) : nat :=
  map_fold (fun _ v sum => (sum + f v)%nat) 0%nat m.

(** [heureDebut?.split(':')[0] || '??']. *)
Definition hour_of (heureDebut : option string) : string :=
  match heureDebut with
  | Some s =>
      let h := hd EmptyString (Js.split_colon s) in
      if String.eqb h "" then "??" else h
  | None => "??"
  end.

(** The names under which an object made with [{}] finds a property it
    does not own: those of [Object.prototype].  Each holds a function,
    [__proto__] the prototype itself, so what is read there is truthy. *)
Definition prototype_names : list string :=
  [ "constructor"; "__defineGetter__"; "__defineSetter__"; "hasOwnProperty";
    "__lookupGetter__"; "__lookupSetter__"; "isPrototypeOf";
    "propertyIsEnumerable"; "toString"; "valueOf"; "__proto__";
    "toLocaleString" ]%string.

Definition inherited (k : string) : bool := existsb (String.eqb k) prototype_names.

(** An entry of [hourlyDistribution]. *)
Record HourStat : Type := mkHourStat { hour_total : nat; hour_validated : nat }.

(** [if (!hourlyDistribution[hour]) hourlyDistribution[hour] = { total: 0,
    validated: 0 }; hourlyDistribution[hour].total++].  Under an inherited
    name the test reads the inherited value: no entry is made, and the
    increment lands on that value, not on the object. *)
Definition count_service_hour (hourlyDistribution : gmap string HourStat)
    (s : Service) : gmap string HourStat :=
  let hour := hour_of (service_heureDebut s) in
  match hourlyDistribution !! hour with
  | Some entry =>
      <[hour := mkHourStat (S (hour_total entry)) (hour_validated entry)]>
        hourlyDistribution
  | None =>
      if inherited hour then hourlyDistribution
      else <[hour := mkHourStat 1 0]> hourlyDistribution
  end.

(** [if (hourlyDistribution[hour]) hourlyDistribution[hour].validated++]:
    an own entry is bumped; with none the object is left as it is, the
    increment landing on the inherited value when there is one. *)
Definition count_pointage_hour (hourlyDistribution : gmap string HourStat)
    (p : Pointage) : gmap string HourStat :=
  let hour := hour_of (s ← pointage_service p; service_heureDebut s) in
  match hourlyDistribution !! hour with
  | Some entry =>
      <[hour := mkHourStat (hour_total entry) (S (hour_validated entry))]>
        hourlyDistribution
  | None => hourlyDistribution
  end.

Definition hourlyDistribution (services : list Service) (pointages : list Pointage)
  : gmap string HourStat :=
  fold_left count_pointage_hour pointages
    (fold_left count_service_hour services ∅).

(** What [vehicleTypes] and [validatedByStats] hold under a key: a count,
    or, under an inherited name, a text.  [(f || 0) + 1] on the inherited
    function [f] is the text of [f] followed by ["1"], and [+ 1] on that
    text appends another: [Spoilt n] is the text of the inherited
    function followed by [n] times the digit 1. *)
Inductive Tally : Type :=
| Count (n : nat)
| Spoilt (n : nat).

(** [o[k] = (o[k] || 0) + 1].  A count or a text the object owns is
    truthy and gets its [+ 1]; with no own property the inherited value
    is read, if there is one.  The assignment then makes an own property,
    except under [__proto__], whose setter drops a value that is not an
    object. *)
Definition bump (o : gmap string Tally) (k : string) : gmap string Tally :=
  match o !! k with
  | Some (Count n) => <[k := Count (S n)]> o
  | Some (Spoilt n) => <[k := Spoilt (S n)]> o
  | None =>
      if inherited k then
        if String.eqb k "__proto__" then o else <[k := Spoilt 1]> o
      else <[k := Count 1]> o
  end.

(** [vehicleTypes], [validatedByStats] and [lineStats]. *)
Definition count_vehicle (vehicleTypes : gmap string Tally) (p : Pointage)
  : gmap string Tally :=
  if Js.truthy (pointage_vehicleType p)
  then bump vehicleTypes (Handlers.text (pointage_vehicleType p))
  else vehicleTypes.

Definition vehicleTypes (pointages : list Pointage) : gmap string Tally :=
  fold_left count_vehicle pointages ∅.

Definition role_of (p : Pointage) : string :=
  or_text (pointage_validatedBy p) "Inconnu".

Definition count_role (validatedByStats : gmap string Tally) (p : Pointage)
  : gmap string Tally :=
  bump validatedByStats (role_of p).

Definition validatedByStats (pointages : list Pointage) : gmap string Tally :=
  fold_left count_role pointages ∅.

Definition line_of (p : Pointage) : string :=
  or_text (s ← pointage_service p; l ← service_ligne s; ligne_numero l) "??".

Record LineStat : Type := mkLineStat { line_numero : string; line_pointages : nat }.

(** [if (!lineStats[lineNum]) lineStats[lineNum] = { numero: lineNum,
    pointages: 0 }; lineStats[lineNum].pointages++], which under an
    inherited name makes no entry, as in [count_service_hour]. *)
Definition count_line (lineStats : gmap string LineStat) (p : Pointage)
  : gmap string LineStat :=
  let lineNum := line_of p in
  match lineStats !! lineNum with
  | Some entry =>
      <[lineNum := mkLineStat (line_numero entry) (S (line_pointages entry))]>
        lineStats
  | None =>
      if inherited lineNum then lineStats
      else <[lineNum := mkLineStat lineNum 1]> lineStats
  end.

Definition lineStats (pointages : list Pointage) : gmap string LineStat :=
  fold_left count_line pointages ∅.

(** How many elements of a list pass a test. *)
Definition count {A} (f : A → bool) (l : list A) : nat := length (List.filter f l).

(** What a tally holds under a key that [n] check-ins carry. *)
Definition tallied (k : string) (n : nat) : option Tally :=
  match n with
  | O => None
  | S _ =>
      if inherited k then
        if String.eqb k "__proto__" then None else Some (Spoilt n)
      else Some (Count n)
  end.

(** The count in an entry of a tally, a text counting for nothing. *)
Definition counted (t : Tally) : nat :=
  match t with
  | Count n => n
  | Spoilt _ => 0%nat
  end.

(** The check-in is of that conductor; the trip, or the trip of the
    check-in, starts in that hour. *)
Definition of_conductor (cid : string) (p : Pointage) : bool :=
  String.eqb (pointage_conducteurId p) cid.

Definition service_at (h : string) (s : Service) : bool :=
  String.eqb (hour_of (service_heureDebut s)) h.

Definition pointage_at (h : string) (p : Pointage) : bool :=
  String.eqb (hour_of (s ← pointage_service p; service_heureDebut s)) h.

End DailyStats.
(* ===================================================================== *)
(** ** Times of day *)
(* ===================================================================== *)

Section TimesOfDay.

Lemma digit_of_range c d : Js.digit_of c = Some d → 0 ≤ d ≤ 9.
Proof.
  unfold Js.digit_of.
  destruct (_ && _)%nat eqn:E; [|discriminate].
  intros [= <-]. apply andb_prop in E as [E1 E2].
  apply Nat.leb_le in E1, E2. lia.
Qed.

Lemma digit_of_not_colon c d : Js.digit_of c = Some d → Ascii.eqb c ":"%char = false.
Proof.
  intros H. destruct (Ascii.eqb_spec c ":"%char) as [->|]; [|reflexivity].
  vm_compute in H. discriminate.
Qed.

(** A well-formed "HH:MM" parses to its minute of the day. *)
Lemma minutes_of_HHMM s :
  Js.is_HHMM s = true → ∃ m, Js.minutes_of s = Js.Num m ∧ 0 ≤ m < 1440.
Proof.
  destruct s as [|h1 [|h2 [|sep [|m1 [|m2 [|x r]]]]]]; try discriminate.
  cbn [Js.is_HHMM].
  destruct (Js.digit_of h1) as [a|] eqn:Ea; [|discriminate].
  destruct (Js.digit_of h2) as [b|] eqn:Eb; [|discriminate].
  destruct (Js.digit_of m1) as [c|] eqn:Ec; [|discriminate].
  destruct (Js.digit_of m2) as [d|] eqn:Ed; [|discriminate].
  intros H. apply andb_prop in H as [H Hm]. apply andb_prop in H as [Hs Hh].
  apply Ascii.eqb_eq in Hs as ->.
  apply Z.ltb_lt in Hh, Hm.
  pose proof (digit_of_range _ _ Ea). pose proof (digit_of_range _ _ Eb).
  pose proof (digit_of_range _ _ Ec). pose proof (digit_of_range _ _ Ed).
  exists (60 * (10 * a + b) + (10 * c + d)). split; [|lia].
  unfold Js.minutes_of. cbn [Js.split_colon].
  rewrite (digit_of_not_colon _ _ Ea), (digit_of_not_colon _ _ Eb),
    (digit_of_not_colon _ _ Ec), (digit_of_not_colon _ _ Ed).
  cbn [Ascii.eqb Bool.eqb map nth Js.Number Js.digits_val].
  unfold Js.Number. cbn [Js.digits_val]. rewrite Ea, Eb, Ec, Ed.
  cbn [Js.mul Js.add]. f_equal. lia.
Qed.

Lemma digit_of_inj c c' d :
  Js.digit_of c = Some d → Js.digit_of c' = Some d → c = c'.
Proof.
  unfold Js.digit_of.
  destruct (_ && _)%nat eqn:E; [|discriminate].
  destruct (_ && _)%nat eqn:E' in |- *; [|discriminate].
  intros [= <-] [= H].
  apply andb_prop in E as [E1 _], E' as [E1' _].
  apply Nat.leb_le in E1, E1'.
  assert (nat_of_ascii c = nat_of_ascii c') as Hn by lia.
  rewrite <- (ascii_nat_embedding c), <- (ascii_nat_embedding c'), Hn.
  reflexivity.
Qed.

(** Two well-formed times with the same minute of the day are the same
    text. *)
Lemma minutes_of_HHMM_inj s t :
  Js.is_HHMM s = true → Js.is_HHMM t = true →
  Js.minutes_of s = Js.minutes_of t → s = t.
Proof.
  destruct s as [|h1 [|h2 [|sep [|m1 [|m2 [|x r]]]]]]; try discriminate.
  destruct t as [|h1' [|h2' [|sep' [|m1' [|m2' [|x' r']]]]]]; try discriminate.
  cbn [Js.is_HHMM].
  destruct (Js.digit_of h1) as [a|] eqn:Ea; [|discriminate].
  destruct (Js.digit_of h2) as [b|] eqn:Eb; [|discriminate].
  destruct (Js.digit_of m1) as [c|] eqn:Ec; [|discriminate].
  destruct (Js.digit_of m2) as [d|] eqn:Ed; [|discriminate].
  destruct (Js.digit_of h1') as [a'|] eqn:Ea'; [|discriminate].
  destruct (Js.digit_of h2') as [b'|] eqn:Eb'; [|discriminate].
  destruct (Js.digit_of m1') as [c'|] eqn:Ec'; [|discriminate].
  destruct (Js.digit_of m2') as [d'|] eqn:Ed'; [|discriminate].
  intros H H'.
  apply andb_prop in H as [H Hm]. apply andb_prop in H as [Hs Hh].
  apply andb_prop in H' as [H' Hm']. apply andb_prop in H' as [Hs' Hh'].
  apply Ascii.eqb_eq in Hs as ->. apply Ascii.eqb_eq in Hs' as ->.
  apply Z.ltb_lt in Hh, Hm, Hh', Hm'.
  pose proof (digit_of_range _ _ Ea). pose proof (digit_of_range _ _ Eb).
  pose proof (digit_of_range _ _ Ec). pose proof (digit_of_range _ _ Ed).
  pose proof (digit_of_range _ _ Ea'). pose proof (digit_of_range _ _ Eb').
  pose proof (digit_of_range _ _ Ec'). pose proof (digit_of_range _ _ Ed').
  unfold Js.minutes_of. cbn [Js.split_colon].
  rewrite (digit_of_not_colon _ _ Ea), (digit_of_not_colon _ _ Eb),
    (digit_of_not_colon _ _ Ec), (digit_of_not_colon _ _ Ed),
    (digit_of_not_colon _ _ Ea'), (digit_of_not_colon _ _ Eb'),
    (digit_of_not_colon _ _ Ec'), (digit_of_not_colon _ _ Ed').
  cbn [Ascii.eqb Bool.eqb map nth].
  unfold Js.Number. cbn [Js.digits_val].
  rewrite Ea, Eb, Ec, Ed, Ea', Eb', Ec', Ed'. cbn [Js.mul Js.add].
  intros [= Heq].
  assert (a = a' ∧ b = b' ∧ c = c' ∧ d = d') as (-> & -> & -> & ->) by lia.
  rewrite (digit_of_inj _ _ _ Ea Ea'), (digit_of_inj _ _ _ Eb Eb'),
    (digit_of_inj _ _ _ Ec Ec'), (digit_of_inj _ _ _ Ed Ed').
  reflexivity.
Qed.

Lemma minutes_of_Num_nonempty s m :
  Js.minutes_of s = Js.Num m → Js.truthy (Some s) = true.
Proof. destruct s; [discriminate|reflexivity]. Qed.

Lemma is_HHMM_nonempty s : Js.is_HHMM s = true → Js.truthy (Some s) = true.
Proof. destruct s; [discriminate|reflexivity]. Qed.

End TimesOfDay.

(* ===================================================================== *)
(** ** Calls of the client *)
(* ===================================================================== *)

Section Calls.
Import Prisma.

(** A struck call rejects and leaves the store alone. *)
Lemma call_struck {A} a (op : Db → Result A * Db) w fs :
  faults w = true :: fs →
  call a op w = (Throw "PrismaClientKnownRequestError",
                 mkWorld (db w) fs (log w ++ [a]) (clock w)).
Proof. unfold call. intros ->. reflexivity. Qed.

(** A call that is not struck runs its operation. *)
Lemma call_runs {A} a (op : Db → Result A * Db) w :
  head (faults w) ≠ Some true →
  call a op w = (fst (op (db w)),
                 mkWorld (snd (op (db w))) (tail (faults w)) (log w ++ [a]) (clock w)).
Proof.
  unfold call. intros H. destruct (faults w) as [|[] fs]; cbn in *;
    try congruence; destruct (op (db w)); reflexivity.
Qed.

(** Every call appends exactly its own entry to the log and keeps the clock. *)
Lemma call_log {A} a (op : Db → Result A * Db) w :
  log (snd (call a op w)) = log w ++ [a] ∧ clock (snd (call a op w)) = clock w.
Proof.
  unfold call. destruct (faults w) as [|[] fs]; cbn; auto;
    destruct (op (db w)); cbn; auto.
Qed.

Lemma call_faults {A} a (op : Db → Result A * Db) w :
  faults (snd (call a op w)) = tail (faults w).
Proof.
  unfold call. destruct (faults w) as [|[] fs]; cbn; auto;
    destruct (op (db w)); reflexivity.
Qed.

(** A call whose operation never changes the store is a read. *)
Lemma call_read {A} a (op : Db → Result A * Db) w :
  (∀ d, snd (op d) = d) → db (snd (call a op w)) = db w.
Proof.
  intros H. unfold call. destruct (faults w) as [|[] fs]; cbn; auto;
    specialize (H (db w)); destruct (op (db w)); cbn in *; auto.
Qed.

Lemma ligne_findUnique_read id w :
  db (snd (ligne_findUnique id w)) = db w
  ∧ log (snd (ligne_findUnique id w)) = log w ++ [LigneFindUnique].
Proof.
  split; [|apply call_log]. apply call_read. intros d. destruct id; reflexivity.
Qed.



End Calls.

(* ===================================================================== *)
(** ** The trip-creation handler, path by path *)
(* ===================================================================== *)

Section TripCreation.
Import Prisma Handlers Spec.

Variable new_Date : string → Js.date.

Lemma post_missing b w :
  required b = false → post_services_hierarchie new_Date b w = (bad_request msg_missing, w).
Proof.
  unfold required. intros H. unfold_handler.
  destruct (Js.truthy (sensId b)), (Js.truthy (heureDebut b)),
    (Js.truthy (heureFin b)); try discriminate; reflexivity.
Qed.

Lemma post_duration b w msg :
  required b = true →
  duration_error (minutesDebut b) (minutesFin b) = Some msg →
  post_services_hierarchie new_Date b w = (bad_request msg, w).
Proof.
  unfold minutesDebut, minutesFin. intros H E. unfold_handler.
  required_true H. rewrite E. reflexivity.
Qed.

(** Past the duration guards the handler is the Line lookup followed by
    [after_lookup]. *)
Lemma post_checked b w :
  required b = true →
  duration_error (minutesDebut b) (minutesFin b) = None →
  post_services_hierarchie new_Date b w = after_lookup new_Date b (ligne_findUnique (ligneId b) w).
Proof.
  unfold minutesDebut, minutesFin, after_lookup, after_duplicate_lookup,
    after_create, duplicate_where, resolved_date.
  intros H E. unfold_handler. required_true H. rewrite E.
  destruct (ligne_findUnique (ligneId b) w) as [[ligne|e] w1]; [|reflexivity].
  destruct (window_error _ _ _); [reflexivity|].
  destruct (service_findFirst _ w1) as [[[s|]|e] w2]; try reflexivity.
  destruct (Js.truthy (date b)); destruct (service_create _ _ _ _ _ _ w2) as [[]];
    reflexivity.
Qed.

(** The Line lookup of a request that names a stored Line, when the
    store answers. *)
Lemma lookup_found w id l :
  head (faults w) ≠ Some true →
  lignes (db w) !! id = Some l →
  ligne_findUnique (Some id) w
  = (Ok (Some l), mkWorld (db w) (tail (faults w)) (log w ++ [LigneFindUnique]) (clock w)).
Proof.
  intros Hf Hl. unfold ligne_findUnique. rewrite call_runs by exact Hf.
  cbn. rewrite Hl. reflexivity.
Qed.

Lemma call_throws {A} a (op : Db → Result A * Db) w e :
  (∀ d e', fst (op d) = Throw e' → store_rejection e') →
  fst (call a op w) = Throw e → store_rejection e.
Proof.
  intros Hop. unfold call. destruct (faults w) as [|[] fs]; cbn.
  - destruct (op (db w)) eqn:E. cbn. intros ->. apply (Hop (db w)). now rewrite E.
  - intros [= <-]. left. reflexivity.
  - destruct (op (db w)) eqn:E. cbn. intros ->. apply (Hop (db w)). now rewrite E.
Qed.

Lemma window_error_message ligne s e msg :
  window_error ligne s e = Some msg → ∃ l, ligne = Some l ∧ window_message l msg.
Proof.
  unfold window_error, window_message. destruct ligne as [l|]; [|discriminate].
  intros H. exists l. split; [reflexivity|].
  repeat match type of H with
         | (if ?c then _ else _) = _ => destruct c
         | (let _ := _ in _) = _ => cbv zeta in H
         end; inversion H; auto.
Qed.

(** Past the window block the answer is a trip, or a rejection of the
    store. *)
Lemma after_duplicate_lookup_response b w1 :
  let r := fst (after_duplicate_lookup new_Date b
                  (service_findFirst (duplicate_where new_Date b) w1)) in
  (∃ s dup, r = json (ServiceJson s dup))
  ∨ (∃ e, r = bad_request e ∧ store_rejection e).
Proof.
  cbv zeta. unfold after_duplicate_lookup.
  destruct (service_findFirst _ w1) as [[[s|]|e] w2] eqn:E2.
  - left. eauto.
  - unfold after_create.
    destruct (service_create _ _ _ _ _ _ w2) as [[s|e] w3] eqn:E3.
    + left. eauto.
    + right. exists e. split; [reflexivity|].
      apply (f_equal fst) in E3. cbn in E3. revert E3. apply call_throws.
      intros d e'. destruct (resolved_date _ _ _); cbn; [discriminate|].
      intros [= <-]. right; left. reflexivity.
  - right. exists e. split; [reflexivity|].
    apply (f_equal fst) in E2. cbn in E2. revert E2. apply call_throws.
    intros d e'. destruct (where_date _) as [[]|]; cbn; try discriminate.
    intros [= <-]. right; left. reflexivity.
Qed.

(** Every answer of a request that got past the duration guards. *)
Lemma post_checked_response b w :
  required b = true →
  duration_error (minutesDebut b) (minutesFin b) = None →
  (∃ s dup, fst (post_services_hierarchie new_Date b w) = json (ServiceJson s dup))
  ∨ (∃ e, fst (post_services_hierarchie new_Date b w) = bad_request e ∧ store_rejection e)
  ∨ (∃ l msg, fst (post_services_hierarchie new_Date b w) = bad_request msg ∧ window_message l msg).
Proof.
  intros H E. rewrite (post_checked b w H E). unfold after_lookup.
  destruct (ligne_findUnique (ligneId b) w) as [[ligne|e] w1] eqn:E1.
  - destruct (window_error _ _ _) as [msg|] eqn:Ew.
    + right; right. apply window_error_message in Ew as (l & _ & Hm). eauto.
    + destruct (after_duplicate_lookup_response b w1) as [?|?]; auto.
  - right; left. exists e. split; [reflexivity|].
    apply (f_equal fst) in E1. cbn in E1. revert E1. apply call_throws.
    intros d e'. destruct (ligneId b); cbn; [discriminate|].
    intros [= <-]. right; left. reflexivity.
Qed.

Lemma window_message_distinct l msg :
  window_message l msg →
  msg ≠ msg_missing ∧ msg ≠ msg_too_long ∧ msg ≠ msg_end_before_start.
Proof.
  intros [-> | [-> | [-> | ->]]]; repeat split; cbv -[text String.append];
    cbn [String.append]; discriminate.
Qed.

Lemma store_rejection_distinct e :
  store_rejection e →
  e ≠ msg_missing ∧ e ≠ msg_too_long ∧ e ≠ msg_end_before_start.
Proof. intros [-> | [-> | ->]]; repeat split; discriminate. Qed.

(** Past the duration guards no answer carries a duration or
    missing-field message. *)
Lemma post_checked_not_duration b w :
  required b = true →
  duration_error (minutesDebut b) (minutesFin b) = None →
  fst (post_services_hierarchie new_Date b w) ≠ bad_request msg_missing
  ∧ fst (post_services_hierarchie new_Date b w) ≠ bad_request msg_too_long
  ∧ fst (post_services_hierarchie new_Date b w) ≠ bad_request msg_end_before_start.
Proof.
  intros H E.
  destruct (post_checked_response b w H E)
    as [(s & dup & ->) | [(e & -> & He) | (l & msg & -> & Hm)]].
  - repeat split; discriminate.
  - apply store_rejection_distinct in He as (? & ? & ?).
    repeat split; intros [=]; contradiction.
  - apply window_message_distinct in Hm as (? & ? & ?).
    repeat split; intros [=]; contradiction.
Qed.

(** The duration of a trip whose two times parse. *)
Lemma dureeService_Num s e :
  dureeService (Js.Num s) (Js.Num e)
  = Js.Num (if s <=? e then e - s else (1440 - s) + e).
Proof.
  unfold dureeService. cbn [Js.sub Js.lt Js.add].
  destruct (Z.ltb_spec (e - s) 0), (Z.leb_spec s e); try lia; reflexivity.
Qed.

Lemma duration_error_Num s e :
  duration_error (Js.Num s) (Js.Num e)
  = let d := if s <=? e then e - s else (1440 - s) + e in
    if 600 <? d then Some msg_too_long
    else if d <=? 0 then Some msg_end_before_start
    else None.
Proof. unfold duration_error. rewrite dureeService_Num. reflexivity. Qed.

(** What the handler knows of a request with both times well formed. *)
Lemma request_times b debut fin :
  Js.truthy (sensId b) = true →
  heureDebut b = Some debut → heureFin b = Some fin →
  Js.is_HHMM debut = true → Js.is_HHMM fin = true →
  required b = true
  ∧ ∃ s e, minutesDebut b = Js.Num s ∧ minutesFin b = Js.Num e
           ∧ Js.minutes_of debut = Js.Num s ∧ Js.minutes_of fin = Js.Num e
           ∧ 0 ≤ s < 1440 ∧ 0 ≤ e < 1440.
Proof.
  intros Hs Hd Hf Wd Wf. unfold required, minutesDebut, minutesFin.
  rewrite Hs, Hd, Hf, (is_HHMM_nonempty _ Wd), (is_HHMM_nonempty _ Wf).
  split; [reflexivity|]. cbn [text].
  destruct (minutes_of_HHMM _ Wd) as (s & Es & ?).
  destruct (minutes_of_HHMM _ Wf) as (e & Ee & ?).
  exists s, e. auto 10.
Qed.

(** The same for a request whose two times are known to parse. *)
Lemma request_minutes b debut fin s e :
  Js.truthy (sensId b) = true →
  heureDebut b = Some debut → heureFin b = Some fin →
  Js.minutes_of debut = Js.Num s → Js.minutes_of fin = Js.Num e →
  required b = true ∧ minutesDebut b = Js.Num s ∧ minutesFin b = Js.Num e.
Proof.
  intros Hs Hd Hf Ms Me. unfold required, minutesDebut, minutesFin.
  rewrite Hs, Hd, Hf, (minutes_of_Num_nonempty _ _ Ms), (minutes_of_Num_nonempty _ _ Me).
  cbn [text andb]. auto.
Qed.

(** C1: for a request with its direction and well-formed "HH:MM" times,
    the duration is [end - start] when [end >= start] and
    [(1440 - start) + end] otherwise; the answer is the
    duration-exceeds-limit error exactly when that duration is above 600,
    and then nothing was touched: no call of the store, no write. *)
Theorem C1_duration_limit b w debut fin :
  Js.truthy (sensId b) = true →
  heureDebut b = Some debut → heureFin b = Some fin →
  Js.is_HHMM debut = true → Js.is_HHMM fin = true →
  ∃ s e : Z,
    Js.minutes_of debut = Js.Num s ∧ Js.minutes_of fin = Js.Num e
    ∧ dureeService (Js.Num s) (Js.Num e)
      = Js.Num (if s <=? e then e - s else (1440 - s) + e)
    ∧ (fst (post_services_hierarchie new_Date b w) = bad_request msg_too_long
       ↔ 600 < (if s <=? e then e - s else (1440 - s) + e))
    ∧ (fst (post_services_hierarchie new_Date b w) = bad_request msg_too_long → snd (post_services_hierarchie new_Date b w) = w).
Proof.
  intros Hs Hd Hf Wd Wf.
  destruct (request_times b debut fin Hs Hd Hf Wd Wf)
    as (Hreq & s & e & Es & Ee & Ms & Me & _ & _).
  exists s, e. split; [exact Ms|]. split; [exact Me|].
  split; [apply dureeService_Num|].
  pose proof (duration_error_Num s e) as Hd'. cbv zeta in Hd'.
  rewrite <- Es, <- Ee in Hd'.
  set (d := if s <=? e then e - s else 1440 - s + e) in *.
  destruct (Z.ltb_spec 600 d) as [Hlong|Hshort].
  - rewrite (post_duration b w _ Hreq Hd'). cbn. tauto.
  - assert (fst (post_services_hierarchie new_Date b w) ≠ bad_request msg_too_long) as Hne.
    { destruct (Z.leb_spec d 0).
      - rewrite (post_duration b w _ Hreq Hd'). cbn. discriminate.
      - apply (post_checked_not_duration b w Hreq Hd'). }
    split; [split; [contradiction | lia] | contradiction].
Qed.

(** C9: with well-formed times the end-before-start error is the answer
    exactly when the two times are equal; an end strictly earlier than
    the start is read as a span across midnight, [(1440 - start) + end],
    which is positive, and is never answered with that error. *)
Theorem C9_end_before_start b w debut fin :
  Js.truthy (sensId b) = true →
  heureDebut b = Some debut → heureFin b = Some fin →
  Js.is_HHMM debut = true → Js.is_HHMM fin = true →
  ∃ s e : Z,
    Js.minutes_of debut = Js.Num s ∧ Js.minutes_of fin = Js.Num e
    ∧ (fst (post_services_hierarchie new_Date b w) = bad_request msg_end_before_start ↔ debut = fin)
    ∧ (debut = fin ↔ s = e)
    ∧ (e < s →
       dureeService (Js.Num s) (Js.Num e) = Js.Num ((1440 - s) + e)
       ∧ 0 < (1440 - s) + e
       ∧ fst (post_services_hierarchie new_Date b w) ≠ bad_request msg_end_before_start).
Proof.
  intros Hs Hd Hf Wd Wf.
  destruct (request_times b debut fin Hs Hd Hf Wd Wf)
    as (Hreq & s & e & Es & Ee & Ms & Me & Rs & Re).
  exists s, e. split; [exact Ms|]. split; [exact Me|].
  assert (debut = fin ↔ s = e) as Heq.
  { split.
    - intros ->. congruence.
    - intros ->. apply minutes_of_HHMM_inj; congruence. }
  pose proof (duration_error_Num s e) as Hd'. cbv zeta in Hd'.
  rewrite <- Es, <- Ee in Hd'.
  assert (fst (post_services_hierarchie new_Date b w) = bad_request msg_end_before_start ↔ s = e) as Hpost.
  { destruct (Z.leb_spec s e) as [Hle|Hgt].
    - destruct (Z.ltb_spec 600 (e - s)).
      + rewrite (post_duration b w _ Hreq Hd'). cbn.
        split; [discriminate | lia].
      + destruct (Z.leb_spec (e - s) 0).
        * rewrite (post_duration b w _ Hreq Hd'). cbn. split; [lia | reflexivity].
        * pose proof (post_checked_not_duration b w Hreq Hd') as (_ & _ & Hne).
          split; [contradiction | lia].
    - destruct (Z.ltb_spec 600 (1440 - s + e)).
      + rewrite (post_duration b w _ Hreq Hd'). cbn.
        split; [discriminate | lia].
      + destruct (Z.leb_spec (1440 - s + e) 0); [lia|].
        pose proof (post_checked_not_duration b w Hreq Hd') as (_ & _ & Hne).
        split; [contradiction | lia]. }
  split; [tauto|]. split; [exact Heq|].
  intros Hlt. split.
  - rewrite dureeService_Num. destruct (Z.leb_spec s e); [lia | reflexivity].
  - split; [lia|]. intros H. apply Hpost in H. lia.
Qed.

(** C6: a request without its direction, its start time or its end time
    is answered with the missing-field error, and the world is exactly
    what it was: no Line lookup, no duplicate lookup, no write. *)
Theorem C6_missing_field b w :
  sensId b = None ∨ heureDebut b = None ∨ heureFin b = None →
  post_services_hierarchie new_Date b w = (bad_request msg_missing, w).
Proof.
  intros H. apply post_missing. unfold required.
  destruct H as [-> | [-> | ->]]; cbn [Js.truthy];
    rewrite ?andb_false_r; reflexivity.
Qed.

(** The window block on a Line whose two times parse, same-day window. *)
Lemma window_error_normal l ld lf ls le s e :
  ligne_heureDebut l = Some ld → ligne_heureFin l = Some lf →
  Js.minutes_of ld = Js.Num ls → Js.minutes_of lf = Js.Num le →
  ls ≤ le →
  window_error (Some l) (Js.Num s) (Js.Num e)
  = if s <? ls then Some (msg_start_before l)
    else if le <? e then Some (msg_end_late l)
    else None.
Proof.
  intros Hd Hf Md Mf Hle. unfold window_error.
  rewrite Hd, Hf, (minutes_of_Num_nonempty _ _ Md), (minutes_of_Num_nonempty _ _ Mf).
  cbn [andb text]. rewrite Md, Mf. cbn [Js.lt Js.gt Js.ge Js.le].
  destruct (Z.ltb_spec le ls); [lia|]. reflexivity.
Qed.

(** The same on a window that runs past midnight. *)
Lemma window_error_wrapping l ld lf ls le s e :
  ligne_heureDebut l = Some ld → ligne_heureFin l = Some lf →
  Js.minutes_of ld = Js.Num ls → Js.minutes_of lf = Js.Num le →
  le < ls →
  window_error (Some l) (Js.Num s) (Js.Num e)
  = if (ls <=? s) || (s <=? le)
    then if (le <? e) && (ls <=? s) && (e <? s) then Some (msg_end_after l) else None
    else Some (msg_start_outside l).
Proof.
  intros Hd Hf Md Mf Hlt. unfold window_error.
  rewrite Hd, Hf, (minutes_of_Num_nonempty _ _ Md), (minutes_of_Num_nonempty _ _ Mf).
  cbn [andb text]. rewrite Md, Mf. cbn [Js.lt Js.gt Js.ge Js.le].
  destruct (Z.ltb_spec le ls); [|lia]. cbv zeta.
  destruct (ls <=? s), (s <=? le); reflexivity.
Qed.

(** A request that passed the duration guards and names a stored Line,
    when the store answers the lookup. *)
Lemma post_with_line b w id l :
  required b = true →
  duration_error (minutesDebut b) (minutesFin b) = None →
  ligneId b = Some id → lignes (db w) !! id = Some l →
  head (faults w) ≠ Some true →
  post_services_hierarchie new_Date b w
  = let w1 := mkWorld (db w) (tail (faults w)) (log w ++ [LigneFindUnique]) (clock w) in
    match window_error (Some l) (minutesDebut b) (minutesFin b) with
    | Some msg => (bad_request msg, w1)
    | None =>
        after_duplicate_lookup new_Date b
          (service_findFirst (duplicate_where new_Date b) w1)
    end.
Proof.
  intros H E Hid Hl Hf. rewrite (post_checked b w H E), Hid.
  rewrite (lookup_found w id l Hf Hl). reflexivity.
Qed.

Lemma store_rejection_not_window e l msg :
  store_rejection e → window_message l msg → e ≠ msg.
Proof.
  intros [-> | [-> | ->]] [-> | [-> | [-> | ->]]];
    cbv -[text String.append]; cbn [String.append]; discriminate.
Qed.

Lemma msg_end_after_not_start_outside l : msg_end_after l ≠ msg_start_outside l.
Proof. cbv -[text String.append]. cbn [String.append]. discriminate. Qed.

(** C2: the times of the request and of the Line being well-formed
    "HH:MM", on a Line whose window does not wrap
    ([lineEnd >= lineStart]), a request past the duration guards is
    answered with the start-before-opening error when its start is before
    the Line's, with the end-after-closing error when (its start being
    admissible) its end is after the Line's, and otherwise goes on to the
    duplicate lookup.  An end after the Line's is refused whichever of the
    two applies, and a refusal leaves the store as it was. *)
Theorem C2_same_day_window b w id l debut fin ld lf s e ls le :
  Js.truthy (sensId b) = true →
  heureDebut b = Some debut → heureFin b = Some fin →
  Js.is_HHMM debut = true → Js.is_HHMM fin = true →
  Js.minutes_of debut = Js.Num s → Js.minutes_of fin = Js.Num e →
  duration_error (Js.Num s) (Js.Num e) = None →
  ligneId b = Some id → lignes (db w) !! id = Some l →
  head (faults w) ≠ Some true →
  ligne_heureDebut l = Some ld → ligne_heureFin l = Some lf →
  Js.is_HHMM ld = true → Js.is_HHMM lf = true →
  Js.minutes_of ld = Js.Num ls → Js.minutes_of lf = Js.Num le →
  ls ≤ le →
  let w1 := mkWorld (db w) (tail (faults w)) (log w ++ [LigneFindUnique]) (clock w) in
  (s < ls → post_services_hierarchie new_Date b w = (bad_request (msg_start_before l), w1))
  ∧ (ls ≤ s → le < e → post_services_hierarchie new_Date b w = (bad_request (msg_end_late l), w1))
  ∧ (le < e → status (fst (post_services_hierarchie new_Date b w)) = 400 ∧ db (snd (post_services_hierarchie new_Date b w)) = db w)
  ∧ (ls ≤ s → e ≤ le →
     window_error (Some l) (Js.Num s) (Js.Num e) = None
     ∧ post_services_hierarchie new_Date b w = after_duplicate_lookup new_Date b
                    (service_findFirst (duplicate_where new_Date b) w1)).
Proof.
  intros Hsens Hdeb Hfi _ _ Mdeb Mfi Hdur Hid Hl Hf Hd Hfin _ _ Mld Mlf Hle w1.
  destruct (request_minutes b debut fin s e Hsens Hdeb Hfi Mdeb Mfi)
    as (Hreq & Ms & Me).
  pose proof (post_with_line b w id l Hreq) as Hpost.
  rewrite Ms, Me in Hpost. specialize (Hpost Hdur Hid Hl Hf). cbv zeta in Hpost.
  fold w1 in Hpost.
  pose proof (window_error_normal l ld lf ls le s e Hd Hfin Mld Mlf Hle) as Hw.
  rewrite Hw in Hpost. rewrite Hw.
  destruct (Z.ltb_spec s ls) as [Hs|Hs]; [|destruct (Z.ltb_spec le e) as [He|He]];
    rewrite Hpost; repeat split; intros; try lia; reflexivity.
Qed.

(** C3: the times of the request and of the Line being well-formed
    "HH:MM", on a Line whose window runs past midnight
    ([lineEnd < lineStart]),
    a request past the duration guards has its start accepted exactly
    when [start >= lineStart] or [start <= lineEnd], and is otherwise
    answered with the start-outside-window error; a trip that itself
    crosses midnight, starts at or after the opening and ends after the
    closing is answered with the end-after-closing error; every other
    request goes on to the duplicate lookup. *)
Theorem C3_overnight_window b w id l debut fin ld lf s e ls le :
  Js.truthy (sensId b) = true →
  heureDebut b = Some debut → heureFin b = Some fin →
  Js.is_HHMM debut = true → Js.is_HHMM fin = true →
  Js.minutes_of debut = Js.Num s → Js.minutes_of fin = Js.Num e →
  duration_error (Js.Num s) (Js.Num e) = None →
  ligneId b = Some id → lignes (db w) !! id = Some l →
  head (faults w) ≠ Some true →
  ligne_heureDebut l = Some ld → ligne_heureFin l = Some lf →
  Js.is_HHMM ld = true → Js.is_HHMM lf = true →
  Js.minutes_of ld = Js.Num ls → Js.minutes_of lf = Js.Num le →
  le < ls →
  let w1 := mkWorld (db w) (tail (faults w)) (log w ++ [LigneFindUnique]) (clock w) in
  (ls ≤ s ∨ s ≤ le ↔ fst (post_services_hierarchie new_Date b w) ≠ bad_request (msg_start_outside l))
  ∧ (¬ (ls ≤ s ∨ s ≤ le) → post_services_hierarchie new_Date b w = (bad_request (msg_start_outside l), w1))
  ∧ (e < s → ls ≤ s → le < e → post_services_hierarchie new_Date b w = (bad_request (msg_end_after l), w1))
  ∧ (ls ≤ s ∨ s ≤ le → ¬ (e < s ∧ ls ≤ s ∧ le < e) →
     window_error (Some l) (Js.Num s) (Js.Num e) = None
     ∧ post_services_hierarchie new_Date b w = after_duplicate_lookup new_Date b
                    (service_findFirst (duplicate_where new_Date b) w1)).
Proof.
  intros Hsens Hdeb Hfi _ _ Mdeb Mfi Hdur Hid Hl Hf Hd Hfin _ _ Mld Mlf Hlt w1.
  destruct (request_minutes b debut fin s e Hsens Hdeb Hfi Mdeb Mfi)
    as (Hreq & Ms & Me).
  pose proof (post_with_line b w id l Hreq) as Hpost.
  rewrite Ms, Me in Hpost. specialize (Hpost Hdur Hid Hl Hf). cbv zeta in Hpost.
  fold w1 in Hpost.
  pose proof (window_error_wrapping l ld lf ls le s e Hd Hfin Mld Mlf Hlt) as Hw.
  rewrite Hw in Hpost. rewrite Hw.
  destruct (Z.leb_spec ls s) as [Hs|Hs], (Z.leb_spec s le) as [Hs'|Hs'];
    cbn [orb] in *;
    (destruct (Z.ltb_spec le e) as [He|He], (Z.ltb_spec e s) as [Hes|Hes];
     cbn [andb] in * ).
  all: rewrite Hpost.
  all: repeat split; intros; try lia; try reflexivity; try tauto.
  all: try (cbn [fst]; intros [= Habs];
            solve [ apply (msg_end_after_not_start_outside l); exact Habs ]).
  all: try (destruct (after_duplicate_lookup_response b w1)
              as [(x & dup & ->) | (x & -> & Hrej)];
            [ discriminate
            | intros [= Habs]; revert Habs;
              apply (store_rejection_not_window _ l); [exact Hrej|];
              left; reflexivity ]).
Qed.





(** With a date in the request the filter of the duplicate lookup is the
    scheduling key. *)
Lemma service_matches_key b day s :
  Js.truthy (date b) = true → new_Date (text (date b)) = Some day →
  service_matches (duplicate_where new_Date b) s = true
  ↔ same_key (text (sensId b)) day (text (heureDebut b)) (text (heureFin b)) s.
Proof.
  intros Ht Hd. unfold service_matches, duplicate_where, same_key. cbn.
  rewrite Ht, Hd, !andb_true_iff, bool_decide_eq_true, Z.eqb_eq, !String.eqb_eq.
  tauto.
Qed.

(** The world after an answered Line lookup. *)
Lemma after_answered_lookup b w ligne :
  fst (ligne_findUnique (ligneId b) w) = Ok ligne →
  ligne_findUnique (ligneId b) w
  = (Ok ligne, mkWorld (db w) (tail (faults w)) (log w ++ [LigneFindUnique]) (clock w)).
Proof.
  intros H.
  pose proof (ligne_findUnique_read (ligneId b) w) as [Hdb Hlog].
  pose proof (call_faults LigneFindUnique
    (λ d, match ligneId b with
          | None => (Throw "PrismaClientValidationError", d)
          | Some i => (Ok (lignes d !! i), d)
          end) w) as Hfaults.
  pose proof (call_log LigneFindUnique
    (λ d, match ligneId b with
          | None => (Throw "PrismaClientValidationError", d)
          | Some i => (Ok (lignes d !! i), d)
          end) w) as [_ Hclock].
  fold (ligne_findUnique (ligneId b)) in Hfaults, Hclock.
  destruct (ligne_findUnique (ligneId b) w) as [r [d f l c]]. cbn in *.
  subst. reflexivity.
Qed.

(** The validated request is the duplicate lookup and what follows. *)
Lemma post_validated b w :
  passes_validation b w →
  post_services_hierarchie new_Date b w
  = after_duplicate_lookup new_Date b
      (service_findFirst (duplicate_where new_Date b)
         (mkWorld (db w) (tail (faults w)) (log w ++ [LigneFindUnique]) (clock w))).
Proof.
  intros (Hreq & Hdur & ligne & Hl & Hw).
  rewrite (post_checked b w Hreq Hdur), (after_answered_lookup b w ligne Hl).
  unfold after_lookup. rewrite Hw. reflexivity.
Qed.

(** A validated request that carries a date and whose key is already
    stored gets a stored trip with that key back, flagged, and nothing is
    written. *)
Lemma duplicate_returned b w day t :
  passes_validation b w →
  head (tail (faults w)) ≠ Some true →
  Js.truthy (date b) = true → new_Date (text (date b)) = Some day →
  t ∈ services (db w) →
  same_key (text (sensId b)) day (text (heureDebut b)) (text (heureFin b)) t →
  ∃ s, fst (post_services_hierarchie new_Date b w) = json (ServiceJson s true)
       ∧ s ∈ services (db w)
       ∧ same_key (text (sensId b)) day (text (heureDebut b)) (text (heureFin b)) s
       ∧ db (snd (post_services_hierarchie new_Date b w)) = db w
       ∧ log (snd (post_services_hierarchie new_Date b w)) = log w ++ [LigneFindUnique; ServiceFindFirst].
Proof.
  intros Hv Hf Ht Hd Hin Hkey. rewrite (post_validated b w Hv).
  unfold service_findFirst. rewrite call_runs by exact Hf.
  cbn [db faults log clock].
  replace (where_date (duplicate_where new_Date b)) with (Some (Some day))
    by (unfold duplicate_where; cbn; now rewrite Ht, Hd).
  cbn [fst snd after_duplicate_lookup].
  destruct (find _ (services (db w))) as [s|] eqn:Efind.
  - apply find_some in Efind as [Hs Hm].
    apply (service_matches_key b day s Ht Hd) in Hm.
    exists s. cbn. rewrite <- app_assoc. apply list_elem_of_In in Hs. auto.
  - exfalso. apply list_elem_of_In in Hin.
    pose proof (find_none _ _ Efind t Hin) as Hno.
    apply (service_matches_key b day t Ht Hd) in Hkey. congruence.
Qed.

(** A validated request that carries a date and whose key is stored
    nowhere is written, once, when the store answers. *)
Lemma new_key_written b w day :
  passes_validation b w →
  head (tail (faults w)) ≠ Some true →
  head (tail (tail (faults w))) ≠ Some true →
  Js.truthy (date b) = true → new_Date (text (date b)) = Some day →
  (∀ t, t ∈ services (db w) →
        ¬ same_key (text (sensId b)) day (text (heureDebut b)) (text (heureFin b)) t) →
  ∃ s, fst (post_services_hierarchie new_Date b w) = json (ServiceJson s false)
       ∧ same_key (text (sensId b)) day (text (heureDebut b)) (text (heureFin b)) s
       ∧ db (snd (post_services_hierarchie new_Date b w))
         = mkDb (lignes (db w)) (services (db w) ++ [s]) (pointages (db w))
       ∧ log (snd (post_services_hierarchie new_Date b w))
         = log w ++ [LigneFindUnique; ServiceFindFirst; ServiceCreate].
Proof.
  intros Hv Hf Hf' Ht Hd Hnew. rewrite (post_validated b w Hv).
  unfold service_findFirst. rewrite call_runs by exact Hf.
  cbn [db faults log clock].
  replace (where_date (duplicate_where new_Date b)) with (Some (Some day))
    by (unfold duplicate_where; cbn; now rewrite Ht, Hd).
  cbn [fst snd after_duplicate_lookup].
  destruct (find _ (services (db w))) as [s|] eqn:Efind.
  - exfalso. apply find_some in Efind as [Hs Hm].
    apply (service_matches_key b day s Ht Hd) in Hm.
    apply list_elem_of_In in Hs. exact (Hnew s Hs Hm).
  - unfold resolved_date, service_create. rewrite Ht, Hd.
    rewrite call_runs by exact Hf'. cbn.
    eexists. split; [reflexivity|]. rewrite <- !app_assoc.
    unfold same_key. cbn. auto 10.
Qed.

(** C4: the duplicate lookup drops the date from its filter when the
    request has none, although the row it would create is dated now.  A
    dateless request for direction S1, 09:00 to 10:00, made on 1 January
    2025 against a store whose only trip with these times is dated 31
    December 2024 differs from every stored trip in its date, and yet is
    answered with that trip flagged as a duplicate, and writes nothing. *)
Theorem C4_dateless_request_matches_any_day :
  let b := Examples.trip "09:00" "10:00" None in
  let w := Examples.world_with_line "08:00" "20:00" [Examples.yesterdays_trip] in
  passes_validation b w
  ∧ resolved_date new_Date b w = Some (clock w)
  ∧ (∀ t, t ∈ services (db w) →
          ¬ same_key "S1" (clock w) "09:00" "10:00" t)
  ∧ fst (post_services_hierarchie new_Date b w) = json (ServiceJson Examples.yesterdays_trip true)
  ∧ db (snd (post_services_hierarchie new_Date b w)) = db w
  ∧ log (snd (post_services_hierarchie new_Date b w)) = [LigneFindUnique; ServiceFindFirst].
Proof.
  cbv zeta. split.
  { split; [reflexivity|]. split; [reflexivity|].
    eexists. split; vm_compute; reflexivity. }
  split; [reflexivity|]. split.
  { intros t Ht. apply list_elem_of_singleton in Ht as ->.
    unfold same_key. cbn. intros (_ & Hday & _). discriminate. }
  repeat split; vm_compute; reflexivity.
Qed.

(** What the window block does guarantee of a trip it lets through. *)
Lemma window_pass_inside l ld lf ls le s e :
  ligne_heureDebut l = Some ld → ligne_heureFin l = Some lf →
  Js.minutes_of ld = Js.Num ls → Js.minutes_of lf = Js.Num le →
  window_error (Some l) (Js.Num s) (Js.Num e) = None →
  (le < ls → ls ≤ s ∨ s ≤ le)
  ∧ (ls ≤ le → ls ≤ s ∧ e ≤ le ∧ (s ≤ e → s ≤ le)).
Proof.
  intros Hd Hf Md Mf Hpass. split; intros Hcmp.
  - rewrite (window_error_wrapping l ld lf ls le s e Hd Hf Md Mf Hcmp) in Hpass.
    destruct (Z.leb_spec ls s), (Z.leb_spec s le); cbn [orb] in Hpass;
      try discriminate; lia.
  - rewrite (window_error_normal l ld lf ls le s e Hd Hf Md Mf Hcmp) in Hpass.
    destruct (Z.ltb_spec s ls), (Z.ltb_spec le e); try discriminate; lia.
Qed.

(** C7: the same-day branch of the window block compares the start with
    the opening and the end with the closing only.  A trip that crosses
    midnight has a small end, so it gets through with a start after the
    closing: on Line L1, open 08:00 to 20:00, the request 22:00 to 05:00
    passes every check and is written, although 22:00 is outside the
    window. *)
Theorem C7_overnight_trip_on_same_day_window :
  let b := Examples.trip "22:00" "05:00" None in
  let w := Examples.world_with_line "08:00" "20:00" [] in
  Js.minutes_of "08:00" = Js.Num 480
  ∧ Js.minutes_of "20:00" = Js.Num 1200
  ∧ minutesDebut b = Js.Num 1320
  ∧ ¬ (480 ≤ 1320 ≤ 1200)
  ∧ ∃ s, fst (post_services_hierarchie new_Date b w) = json (ServiceJson s false)
         ∧ service_heureDebut s = "22:00"%string
         ∧ service_ligneId s = Some "L1"%string
         ∧ services (db (snd (post_services_hierarchie new_Date b w))) = [s].
Proof.
  cbv zeta. repeat split; try reflexivity; try lia.
  eexists. repeat split; vm_compute; reflexivity.
Qed.

End TripCreation.

(* ===================================================================== *)
(** ** The check-in handler *)
(* ===================================================================== *)

Section CheckIn.
Import Prisma Handlers.

Lemma update_row_spec id f l s' l' :
  update_row id f l = Some (s', l') →
  ∃ pre s0 post,
    l = pre ++ s0 :: post ∧ service_id s0 = id
    ∧ s' = f s0 ∧ l' = pre ++ f s0 :: post.
Proof.
  revert s' l'. induction l as [|x l IH]; intros s' l'; cbn; [discriminate|].
  destruct (String.eqb_spec (service_id x) id) as [Hid|Hid].
  - intros [= <- <-]. exists [], x, l. auto.
  - destruct (update_row id f l) as [[s1 l1]|]; [|discriminate].
    intros [= <- <-].
    destruct (IH s1 l1 eq_refl) as (pre & s0 & post & -> & ? & -> & ->).
    exists (x :: pre), s0, post. auto.
Qed.

(** C10: when its required fields are present, the referenced trip is
    stored and the store answers the update, the check-in handler calls
    the update before the create and the trip is marked done whatever the
    create does next.  If the create is rejected the answer is a 400, no
    check-in row exists, and the trip stays marked: the stored state is
    not what it was before the request unless the trip was already done. *)
Theorem C10_status_survives_failed_checkin b w s' l' :
  missing b = [] →
  update_row (text (serviceId b)) (set_statut "Terminée") (services (db w))
  = Some (s', l') →
  head (faults w) ≠ Some true →
  log (snd (post_pointages b w)) = log w ++ [ServiceUpdate; PointageCreate]
  ∧ services (db (snd (post_pointages b w))) = l'
  ∧ s' ∈ l'
  ∧ service_id s' = text (serviceId b)
  ∧ service_statut s' = "Terminée"%string
  ∧ (head (tail (faults w)) = Some true →
     status (fst (post_pointages b w)) = 400
     ∧ pointages (db (snd (post_pointages b w))) = pointages (db w)
     ∧ ((∀ s0, s0 ∈ services (db w) → service_id s0 = text (serviceId b) →
               service_statut s0 ≠ "Terminée"%string) →
        db (snd (post_pointages b w)) ≠ db w))
  ∧ (head (tail (faults w)) ≠ Some true →
     status (fst (post_pointages b w)) = 201
     ∧ ∃ p, payload (fst (post_pointages b w)) = PointageJson p
            ∧ pointages (db (snd (post_pointages b w))) = pointages (db w) ++ [p]).
Proof.
  intros Hm Hu Hf.
  destruct (update_row_spec _ _ _ _ _ Hu) as (pre & s0 & post & Hl & Hid & -> & ->).
  unfold post_pointages, try_catch, bind, ret. rewrite Hm.
  unfold service_update_statut. rewrite call_runs by exact Hf. rewrite Hu.
  cbn [fst snd]. unfold pointage_create.
  destruct (tail (faults w)) as [|[] fs] eqn:Ef;
    [ rewrite call_runs by (cbn; discriminate)
    | rewrite (call_struck _ _ _ fs) by reflexivity
    | rewrite call_runs by (cbn; discriminate) ];
    cbn; rewrite <- app_assoc; repeat split; auto.
  all: try discriminate.
  all: try (apply elem_of_app; right; left).
  all: try congruence.
  all: try solve [eauto].
  intros Hkeep Heq. apply (f_equal services) in Heq. cbn in Heq.
  rewrite Hl in Heq. apply app_inv_head in Heq. injection Heq as Heq.
  apply (Hkeep s0).
  - rewrite Hl. apply elem_of_app; right; left.
  - exact Hid.
  - rewrite <- Heq. reflexivity.
Qed.

End CheckIn.

(* ===================================================================== *)
(** ** Readiness *)
(* ===================================================================== *)

Section ReadinessGuard.
Import Readiness.

Variables cors_package express_json : Middleware.

Lemma db_guard_closed req :
  path req ∉ noDbPaths → db_guard false req = Respond 503.
Proof.
  intros H. unfold db_guard. rewrite (bool_decide_eq_false_2 _ H). reflexivity.
Qed.

Lemma startServer_ready probe p :
  prismaReady p = false →
  prismaReady (startServer probe p) = prisma p && probe.
Proof.
  intros H. unfold startServer. destruct (prisma p), probe; cbn; auto.
Qed.

Lemma requests_keep_flag reqs p :
  fold_left step (map Incoming reqs) p = p.
Proof. induction reqs as [|r reqs IH]; cbn; auto. Qed.

(** C8: while [prismaReady] is false no request whose path is outside
    the allowlist reaches a route handler, and the guard answers it 503
    provided no earlier middleware answered first (the request is not an
    OPTIONS preflight and the two package middlewares passed it on); the
    flag goes from false to true only in [startServer()], with a
    constructed client and an answered probe, and over the life of the
    process it is "client constructed and probe answered". *)
Theorem C8_guard_while_not_ready :
  (∀ req, path req ∉ noDbPaths → before_routes cors_package express_json false req ≠ Next)
  ∧ (∀ req, path req ∉ noDbPaths → method req ≠ "OPTIONS"%string →
            cors_package req = Next → express_json req = Next →
            before_routes cors_package express_json false req = Respond 503)
  ∧ (∀ p e, prismaReady p = false → prismaReady (step p e) = true →
            e = Start true ∧ prisma p = true)
  ∧ (∀ constructed probe reqs,
       prismaReady (run constructed probe reqs) = constructed && probe).
Proof.
  repeat split.
  - intros req H. unfold before_routes. cbn [run_stack].
    rewrite (db_guard_closed req H).
    destruct (cors_package req), (cors_headers req), (express_json req);
      discriminate.
  - intros req H Hm Hc Hj. unfold before_routes. cbn [run_stack].
    rewrite Hc, Hj, (db_guard_closed req H). unfold cors_headers.
    destruct (String.eqb_spec (method req) "OPTIONS"); [contradiction|reflexivity].
  - destruct e as [[]|req]; cbn in *; [reflexivity | | congruence].
    unfold startServer in H0. destruct (prisma p); cbn in H0; congruence.
  - destruct e as [probe|req]; cbn in *; [|congruence].
    rewrite (startServer_ready probe p H) in H0.
    apply andb_prop in H0 as [? _]. assumption.
  - intros constructed probe reqs. unfold run. rewrite requests_keep_flag.
    cbn [step]. rewrite startServer_ready by reflexivity. reflexivity.
Qed.

End ReadinessGuard.

Section Preflight.
Import Readiness.

(** While not ready, the preflight of a route outside the allowlist is
    answered 200 by the CORS middleware, ahead of the guard. *)
Lemma C8_preflight_is_answered_200 :
  ¬ (∀ req, path req ∉ noDbPaths →
            before_routes cors_with_options json_accepts false req = Respond 503).
Proof.
  intros H. specialize (H (mkRequest "OPTIONS" "/api/services")).
  assert ("/api/services"%string ∉ noDbPaths) as Hout.
  { apply (bool_decide_unpack _). vm_compute. exact I. }
  specialize (H Hout). vm_compute in H. discriminate.
Qed.

End Preflight.

(* ===================================================================== *)
(** ** The statements at the inputs of the specification *)
(* ===================================================================== *)

Section Instances.
Import Prisma Handlers Spec Examples Readiness.

(** The calls of the created path hold one write, those of the
    duplicate path none. *)
Example one_write_when_created :
  List.filter is_write [LigneFindUnique; ServiceFindFirst; ServiceCreate]
  = [ServiceCreate].
Proof. reflexivity. Qed.

Example no_write_when_duplicate :
  List.filter is_write [LigneFindUnique; ServiceFindFirst] = [].
Proof. reflexivity. Qed.

Example minutes_of_2205 : Js.minutes_of "22:05" = Js.Num 1325.
Proof. reflexivity. Qed.

Example minutes_of_no_colon : Js.minutes_of "2205" = Js.NaN.
Proof. reflexivity. Qed.

(** 22:00 to 05:00 is 420 minutes and passes both duration guards. *)
Example overnight_420_passes :
  dureeService (Js.minutes_of "22:00") (Js.minutes_of "05:00") = Js.Num 420
  ∧ duration_error (Js.minutes_of "22:00") (Js.minutes_of "05:00") = None.
Proof. split; reflexivity. Qed.

(** 22:00 to 09:00 is (1440 - 1320) + 540 = 660 minutes: refused, nothing
    touched. *)
Lemma C1_at_22h_09h :
  dureeService (Js.minutes_of "22:00") (Js.minutes_of "09:00") = Js.Num 660
  ∧ post_services_hierarchie epoch (trip "22:00" "09:00" None)
      (world_with_line "08:00" "20:00" [])
    = (bad_request msg_too_long, world_with_line "08:00" "20:00" []).
Proof.
  destruct (C1_duration_limit epoch (trip "22:00" "09:00" None)
              (world_with_line "08:00" "20:00" []) "22:00" "09:00"
              eq_refl eq_refl eq_refl eq_refl eq_refl)
    as (s & e & Ms & Me & Hd & Hiff & Hw).
  injection Ms as <-. injection Me as <-.
  split; [exact Hd|].
  assert (fst (post_services_hierarchie epoch (trip "22:00" "09:00" None)
                 (world_with_line "08:00" "20:00" []))
          = bad_request msg_too_long) as Hr by (apply Hiff; reflexivity).
  rewrite (surjective_pairing (post_services_hierarchie _ _ _)).
  rewrite Hr, (Hw Hr). reflexivity.
Defined.

(** Window 08:00 to 20:00: 07:00-09:00 is refused for its start,
    12:00-21:00 for its end, 09:00-10:00 goes through. *)
Lemma C2_at_window_08h_20h :
  let w := world_with_line "08:00" "20:00" [] in
  fst (post_services_hierarchie epoch (trip "07:00" "09:00" None) w)
  = bad_request "Service must start at or after 08:00"
  ∧ fst (post_services_hierarchie epoch (trip "12:00" "21:00" None) w)
    = bad_request "Service must end before or at 20:00"
  ∧ window_error (Some (mkLigne "L1" (Some "08:00"%string) (Some "20:00"%string)))
      (Js.Num 540) (Js.Num 600) = None.
Proof.
  cbv zeta. split; [|split].
  - destruct (C2_same_day_window epoch (trip "07:00" "09:00" None)
                (world_with_line "08:00" "20:00" []) "L1"
                (mkLigne "L1" (Some "08:00"%string) (Some "20:00"%string))
                "07:00" "09:00" "08:00" "20:00" 420 540 480 1200
                eq_refl eq_refl eq_refl eq_refl eq_refl eq_refl eq_refl eq_refl
                eq_refl ltac:(vm_compute; reflexivity) ltac:(discriminate)
                eq_refl eq_refl eq_refl eq_refl eq_refl eq_refl ltac:(lia))
      as (H & _).
    rewrite H by lia. reflexivity.
  - destruct (C2_same_day_window epoch (trip "12:00" "21:00" None)
                (world_with_line "08:00" "20:00" []) "L1"
                (mkLigne "L1" (Some "08:00"%string) (Some "20:00"%string))
                "12:00" "21:00" "08:00" "20:00" 720 1260 480 1200
                eq_refl eq_refl eq_refl eq_refl eq_refl eq_refl eq_refl eq_refl
                eq_refl ltac:(vm_compute; reflexivity) ltac:(discriminate)
                eq_refl eq_refl eq_refl eq_refl eq_refl eq_refl ltac:(lia))
      as (_ & H & _).
    rewrite H by lia. reflexivity.
  - destruct (C2_same_day_window epoch (trip "09:00" "10:00" None)
                (world_with_line "08:00" "20:00" []) "L1"
                (mkLigne "L1" (Some "08:00"%string) (Some "20:00"%string))
                "09:00" "10:00" "08:00" "20:00" 540 600 480 1200
                eq_refl eq_refl eq_refl eq_refl eq_refl eq_refl eq_refl eq_refl
                eq_refl ltac:(vm_compute; reflexivity) ltac:(discriminate)
                eq_refl eq_refl eq_refl eq_refl eq_refl eq_refl ltac:(lia))
      as (_ & _ & _ & H).
    apply H; lia.
Defined.

(** Two trips that end after the Line closes and are not answered with the
    end-after-closing error, because an earlier guard answers them.  The
    trip 09:00-21:00 on the window 08:00 to 20:00 lasts 720 minutes: the
    duration guard refuses it before the window is looked at.  The trip
    07:00-13:00 on the window 08:00 to 12:00 lasts 360 minutes and ends
    after the closing, but it also starts before the opening, and the
    start is tested first. *)
Lemma C2_late_end_answered_by_an_earlier_guard :
  let r := fst (post_services_hierarchie epoch (trip "09:00" "21:00" None)
                  (world_with_line "08:00" "20:00" [])) in
  let r' := fst (post_services_hierarchie epoch (trip "07:00" "13:00" None)
                   (world_with_line "08:00" "12:00" [])) in
  let l := mkLigne "L1" (Some "08:00"%string) (Some "20:00"%string) in
  let l' := mkLigne "L1" (Some "08:00"%string) (Some "12:00"%string) in
  (dureeService (Js.minutes_of "09:00") (Js.minutes_of "21:00") = Js.Num 720
   ∧ Js.gt (Js.minutes_of "21:00") (Js.minutes_of "20:00") = true
   ∧ r = bad_request msg_too_long
   ∧ r ≠ bad_request (msg_end_late l))
  ∧ (duration_error (Js.minutes_of "07:00") (Js.minutes_of "13:00") = None
     ∧ Js.gt (Js.minutes_of "13:00") (Js.minutes_of "12:00") = true
     ∧ r' = bad_request (msg_start_before l')
     ∧ r' ≠ bad_request (msg_end_late l')).
Proof. cbv zeta. repeat split; vm_compute; try reflexivity; discriminate. Qed.

(** Window 05:00 to 02:00: a start at 01:00 or at 22:00 is accepted, a
    start at 03:00 is refused; the overnight trip 22:00-03:00 is refused
    for its end. *)
Lemma C3_at_window_05h_02h :
  let w := world_with_line "05:00" "02:00" [] in
  let l := mkLigne "L1" (Some "05:00"%string) (Some "02:00"%string) in
  fst (post_services_hierarchie epoch (trip "01:00" "01:30" None) w)
  ≠ bad_request (msg_start_outside l)
  ∧ fst (post_services_hierarchie epoch (trip "03:00" "04:00" None) w)
    = bad_request "Service must start between 05:00 and 02:00 (next day)"
  ∧ fst (post_services_hierarchie epoch (trip "22:00" "23:00" None) w)
    ≠ bad_request (msg_start_outside l)
  ∧ fst (post_services_hierarchie epoch (trip "22:00" "03:00" None) w)
    = bad_request "Service cannot end after 02:00".
Proof.
  cbv zeta. split; [|split; [|split]].
  - destruct (C3_overnight_window epoch (trip "01:00" "01:30" None)
                (world_with_line "05:00" "02:00" []) "L1"
                (mkLigne "L1" (Some "05:00"%string) (Some "02:00"%string))
                "01:00" "01:30" "05:00" "02:00" 60 90 300 120
                eq_refl eq_refl eq_refl eq_refl eq_refl eq_refl eq_refl eq_refl
                eq_refl ltac:(vm_compute; reflexivity) ltac:(discriminate)
                eq_refl eq_refl eq_refl eq_refl eq_refl eq_refl ltac:(lia))
      as (H & _).
    apply H. lia.
  - destruct (C3_overnight_window epoch (trip "03:00" "04:00" None)
                (world_with_line "05:00" "02:00" []) "L1"
                (mkLigne "L1" (Some "05:00"%string) (Some "02:00"%string))
                "03:00" "04:00" "05:00" "02:00" 180 240 300 120
                eq_refl eq_refl eq_refl eq_refl eq_refl eq_refl eq_refl eq_refl
                eq_refl ltac:(vm_compute; reflexivity) ltac:(discriminate)
                eq_refl eq_refl eq_refl eq_refl eq_refl eq_refl ltac:(lia))
      as (_ & H & _).
    rewrite H by lia. reflexivity.
  - destruct (C3_overnight_window epoch (trip "22:00" "23:00" None)
                (world_with_line "05:00" "02:00" []) "L1"
                (mkLigne "L1" (Some "05:00"%string) (Some "02:00"%string))
                "22:00" "23:00" "05:00" "02:00" 1320 1380 300 120
                eq_refl eq_refl eq_refl eq_refl eq_refl eq_refl eq_refl eq_refl
                eq_refl ltac:(vm_compute; reflexivity) ltac:(discriminate)
                eq_refl eq_refl eq_refl eq_refl eq_refl eq_refl ltac:(lia))
      as (H & _).
    apply H. lia.
  - destruct (C3_overnight_window epoch (trip "22:00" "03:00" None)
                (world_with_line "05:00" "02:00" []) "L1"
                (mkLigne "L1" (Some "05:00"%string) (Some "02:00"%string))
                "22:00" "03:00" "05:00" "02:00" 1320 180 300 120
                eq_refl eq_refl eq_refl eq_refl eq_refl eq_refl eq_refl eq_refl
                eq_refl ltac:(vm_compute; reflexivity) ltac:(discriminate)
                eq_refl eq_refl eq_refl eq_refl eq_refl eq_refl ltac:(lia))
      as (_ & _ & H & _).
    rewrite H by lia. reflexivity.
Defined.

(** A request without its direction. *)
Lemma C6_at_missing_direction :
  post_services_hierarchie epoch
    (mkServiceBody None (Some "L1"%string) (Some "09:00"%string)
                   (Some "10:00"%string) None None)
    (world_with_line "08:00" "20:00" [])
  = (bad_request msg_missing, world_with_line "08:00" "20:00" []).
Proof.
  apply (C6_missing_field epoch). left. reflexivity.
Defined.

(** 10:00 to 10:00 is refused as ending before it starts; 22:00 to 05:00
    is not. *)
Lemma C9_at_equal_and_overnight_times :
  fst (post_services_hierarchie epoch (trip "10:00" "10:00" None)
         (world_with_line "08:00" "20:00" []))
  = bad_request msg_end_before_start
  ∧ fst (post_services_hierarchie epoch (trip "22:00" "05:00" None)
           (world_with_line "05:00" "02:00" []))
    ≠ bad_request msg_end_before_start.
Proof.
  split.
  - destruct (C9_end_before_start epoch (trip "10:00" "10:00" None)
                (world_with_line "08:00" "20:00" []) "10:00" "10:00"
                eq_refl eq_refl eq_refl eq_refl eq_refl)
      as (s & e & _ & _ & H & _).
    apply H. reflexivity.
  - destruct (C9_end_before_start epoch (trip "22:00" "05:00" None)
                (world_with_line "05:00" "02:00" []) "22:00" "05:00"
                eq_refl eq_refl eq_refl eq_refl eq_refl)
      as (s & e & Ms & Me & _ & _ & H).
    injection Ms as <-. injection Me as <-.
    apply H. lia.
Defined.

(** 24:30 to 00:10: the handler takes both as times, the end is earlier
    than the start and the two differ, yet the span across midnight is
    [(1440 - 1470) + 10 = -20] minutes, and the answer is the
    end-before-start error. *)
Lemma C9_2430_0010_ends_before_it_starts :
  let r := fst (post_services_hierarchie epoch (trip "24:30" "00:10" None)
                  (world_with_line "08:00" "20:00" [])) in
  Js.minutes_of "24:30" = Js.Num 1470 ∧ Js.minutes_of "00:10" = Js.Num 10
  ∧ Js.lt (Js.minutes_of "00:10") (Js.minutes_of "24:30") = true
  ∧ dureeService (Js.minutes_of "24:30") (Js.minutes_of "00:10") = Js.Num (-20)
  ∧ r = bad_request msg_end_before_start.
Proof. cbv zeta. repeat split; vm_compute; reflexivity. Qed.

(** The store answers the update and rejects the create: a 400, no
    check-in row, and the trip that was planned is now done. *)
Lemma C10_at_rejected_create :
  status (fst (post_pointages checkin checkin_world)) = 400
  ∧ pointages (db (snd (post_pointages checkin checkin_world))) = []
  ∧ services (db (snd (post_pointages checkin checkin_world)))
    = [set_statut "Terminée" planned_trip]
  ∧ db (snd (post_pointages checkin checkin_world)) ≠ db checkin_world.
Proof.
  destruct (C10_status_survives_failed_checkin checkin checkin_world
              (set_statut "Terminée" planned_trip)
              [set_statut "Terminée" planned_trip]
              eq_refl eq_refl ltac:(discriminate))
    as (_ & Hs & _ & _ & _ & Hfail & _).
  destruct Hfail as (Hst & Hp & Hne); [reflexivity|].
  repeat split; try assumption.
  apply Hne. intros s0 Hin _. apply list_elem_of_singleton in Hin as ->.
  discriminate.
Defined.

(** A POST outside the allowlist, while not ready. *)
Lemma C8_at_post_while_not_ready :
  before_routes cors_with_options json_accepts false
    (mkRequest "POST" "/api/services-hierarchie")
  = Respond 503.
Proof.
  destruct (C8_guard_while_not_ready cors_with_options json_accepts)
    as (_ & H & _).
  apply H; [|discriminate|reflexivity|reflexivity].
  apply (bool_decide_unpack _). vm_compute. exact I.
Defined.

End Instances.

(* ===================================================================== *)
(** ** Further properties of the trip-creation handler *)
(* ===================================================================== *)

Section TripCreationMore.
Import Prisma Handlers Spec.

Variable new_Date : string → Js.date.

(** For two times of day the duration is the distance from start to end
    round the clock: [(end - start) mod 1440], between 0 and 1439. *)
Theorem dureeService_round_the_clock s e :
  0 ≤ s < 1440 → 0 ≤ e < 1440 →
  dureeService (Js.Num s) (Js.Num e) = Js.Num ((e - s) mod 1440)
  ∧ 0 ≤ (e - s) mod 1440 < 1440.
Proof.
  intros Hs He. rewrite dureeService_Num. split; [|apply Z.mod_pos_bound; lia].
  f_equal. destruct (Z.leb_spec s e).
  - symmetry. apply Z.mod_small. lia.
  - apply (Z.mod_unique_pos _ _ (-1)); lia.
Qed.

(** Well-formed times parse to a minute of the day, and two different
    well-formed times never parse to the same minute. *)
Theorem minutes_of_HHMM_faithful s t :
  Js.is_HHMM s = true → Js.is_HHMM t = true →
  (∃ m, Js.minutes_of s = Js.Num m ∧ 0 ≤ m < 1440)
  ∧ (Js.minutes_of s = Js.minutes_of t ↔ s = t).
Proof.
  intros Hs Ht. split; [apply minutes_of_HHMM, Hs|].
  split; [apply minutes_of_HHMM_inj; assumption | intros ->; reflexivity].
Qed.

(** Whatever the store holds, a request with well-formed times that is
    answered with a trip, new or duplicate, lasts between 1 and 600
    minutes. *)
Theorem answered_trip_duration b w debut fin s dup :
  heureDebut b = Some debut → heureFin b = Some fin →
  Js.is_HHMM debut = true → Js.is_HHMM fin = true →
  fst (post_services_hierarchie new_Date b w) = json (ServiceJson s dup) →
  ∃ d, dureeService (Js.minutes_of debut) (Js.minutes_of fin) = Js.Num d
       ∧ 1 ≤ d ≤ 600.
Proof.
  intros Hd Hf Wd Wf Hans.
  destruct (Js.truthy (sensId b)) eqn:Hs.
  2: { rewrite post_missing in Hans; [discriminate|].
       unfold required. rewrite Hs. reflexivity. }
  destruct (request_times b debut fin Hs Hd Hf Wd Wf)
    as (Hreq & m & n & Em & En & Mm & Mn & _ & _).
  rewrite Mm, Mn, dureeService_Num. eexists. split; [reflexivity|].
  pose proof (duration_error_Num m n) as Hdur. cbv zeta in Hdur.
  rewrite <- Em, <- En in Hdur.
  destruct (Z.ltb_spec 600 (if m <=? n then n - m else 1440 - m + n)).
  { rewrite (post_duration new_Date b w _ Hreq Hdur) in Hans. discriminate. }
  destruct (Z.leb_spec (if m <=? n then n - m else 1440 - m + n) 0).
  { rewrite (post_duration new_Date b w _ Hreq Hdur) in Hans. discriminate. }
  lia.
Qed.

(** What a created answer tells: the request got through validation, no
    stored trip matched its filter, and the world afterwards is the one
    before plus the new row and the three calls. *)
Lemma created_inv b w s w1 :
  post_services_hierarchie new_Date b w = (json (ServiceJson s false), w1) →
  passes_validation b w
  ∧ find (service_matches (duplicate_where new_Date b)) (services (db w)) = None
  ∧ where_date (duplicate_where new_Date b) ≠ Some None
  ∧ (∃ day, resolved_date new_Date b w = Some day
            ∧ s = mkService (fresh_id (length (services (db w))))
                    (Some (text (sensId b))) (ligneId b)
                    (text (heureDebut b)) (text (heureFin b))
                    (if Js.truthy (statut b) then text (statut b) else "Planifiée")
                    day)
  ∧ w1 = mkWorld (mkDb (lignes (db w)) (services (db w) ++ [s]) (pointages (db w)))
           (tail (tail (tail (faults w))))
           (log w ++ [LigneFindUnique; ServiceFindFirst; ServiceCreate])
           (clock w).
Proof.
  intros H.
  destruct (required b) eqn:Hreq;
    [|rewrite (post_missing new_Date b w Hreq) in H; discriminate].
  destruct (duration_error (minutesDebut b) (minutesFin b)) as [msg|] eqn:Hdur;
    [rewrite (post_duration new_Date b w msg Hreq Hdur) in H; discriminate|].
  rewrite (post_checked new_Date b w Hreq Hdur) in H. unfold after_lookup in H.
  destruct (ligne_findUnique (ligneId b) w) as [[ligne|e] w0] eqn:E1;
    [|discriminate].
  assert (fst (ligne_findUnique (ligneId b) w) = Ok ligne) as Hl by now rewrite E1.
  rewrite (after_answered_lookup b w ligne Hl) in E1. injection E1 as <-.
  destruct (window_error ligne _ _) eqn:Hw; [discriminate|].
  unfold after_duplicate_lookup, after_create, service_findFirst, service_create,
    call, resolved_date in H.
  cbn [faults db log clock] in H.
  repeat case_match; simplify_eq; cbn [db faults log clock tail] in *;
    simplify_eq; cbn [tail].
  all: split; [unfold passes_validation; eauto 10|].
  all: split; [assumption|].
  all: split; [congruence|].
  all: split;
    [ unfold resolved_date; repeat case_match; simplify_eq;
      eexists; (split; [eassumption || reflexivity | reflexivity])
    | rewrite <- !app_assoc; reflexivity ].
Qed.

Lemma find_snoc {A} (f : A → bool) (l : list A) (x : A) :
  find f l = None → f x = true → find f (l ++ [x]) = Some x.
Proof.
  induction l as [|y l IH]; cbn; intros Hn Hx; [now rewrite Hx|].
  destruct (f y); [discriminate|auto].
Qed.

(** The row a created answer carries: the request's direction, Line and
    times as sent, the status defaulting to [Planifiée] and the date to
    the instant of the request; it is the one row added to the store. *)
Theorem created_trip_fields b w s w1 :
  post_services_hierarchie new_Date b w = (json (ServiceJson s false), w1) →
  service_sensId s = sensId b
  ∧ service_ligneId s = ligneId b
  ∧ Some (service_heureDebut s) = heureDebut b
  ∧ Some (service_heureFin s) = heureFin b
  ∧ service_statut s = (if Js.truthy (statut b) then text (statut b) else "Planifiée")
  ∧ Some (service_date s)
    = (if Js.truthy (date b) then new_Date (text (date b)) else Some (clock w))
  ∧ services (db w1) = services (db w) ++ [s]
  ∧ lignes (db w1) = lignes (db w) ∧ pointages (db w1) = pointages (db w).
Proof.
  intros H.
  destruct (created_inv b w s w1 H)
    as ((Hreq & _) & _ & _ & (day & Hday & ->) & ->).
  unfold required in Hreq. unfold resolved_date in Hday.
  cbn [service_sensId service_ligneId service_heureDebut service_heureFin
       service_statut service_date db services lignes pointages].
  destruct (sensId b) as [x|]; [|discriminate].
  destruct (heureDebut b) as [y|]; [|cbn in Hreq; now rewrite andb_false_r in Hreq].
  destruct (heureFin b) as [z|]; [|cbn in Hreq; now rewrite andb_false_r in Hreq].
  cbn [text]. repeat split; try reflexivity. symmetry. exact Hday.
Qed.

(** Sending a request again after it created a trip, with no storage
    failure, returns that very trip flagged as a duplicate and leaves the
    store as the first request left it: with or without a date in the
    request, the second run writes nothing. *)
Theorem retry_returns_created_trip b w s w1 :
  faults w = [] →
  post_services_hierarchie new_Date b w = (json (ServiceJson s false), w1) →
  post_services_hierarchie new_Date b w1
  = (json (ServiceJson s true),
     mkWorld (db w1) [] (log w1 ++ [LigneFindUnique; ServiceFindFirst]) (clock w1)).
Proof.
  intros Hf H.
  destruct (created_inv b w s w1 H)
    as ((Hreq & Hdur & ligne & Hl & Hw) & Hfind & Hdate & (day & Hday & Hs) & Hw1).
  assert (passes_validation b w1) as Hv.
  { split; [exact Hreq|]. split; [exact Hdur|]. exists ligne. split; [|exact Hw].
    rewrite Hw1. revert Hl. unfold ligne_findUnique, call. rewrite Hf. cbn.
    destruct (ligneId b); auto. }
  rewrite (post_validated new_Date b w1 Hv).
  unfold service_findFirst. rewrite call_runs by (rewrite Hw1, Hf; discriminate).
  assert (service_matches (duplicate_where new_Date b) s = true) as Hm.
  { rewrite Hs. unfold service_matches, duplicate_where, resolved_date in *. cbn in *.
    destruct (Js.truthy (date b)).
    - rewrite Hday, Z.eqb_refl, !String.eqb_refl, bool_decide_eq_true_2; reflexivity.
    - rewrite !String.eqb_refl, bool_decide_eq_true_2; reflexivity. }
  cbn [db faults log clock fst snd].
  destruct (where_date (duplicate_where new_Date b)) as [[t|]|] eqn:Ewd;
    [| contradiction |].
  all: cbn [fst snd]; rewrite Hw1 at 1; cbn [db services].
  all: rewrite (find_snoc _ _ s Hfind Hm); cbn [after_duplicate_lookup].
  all: rewrite Hw1, Hf, <- !app_assoc; reflexivity.
Qed.

(** A request with well-formed "HH:MM" times that is answered with a
    trip, on a stored Line whose two hours are well-formed too.  The four
    parse to minutes of the day; on a window that runs past midnight the
    start is inside the window; on a same-day window the start is at or
    after the opening and the end at or before the closing, which bounds
    the start by the closing only when the trip does not itself cross
    midnight. *)
Theorem answered_trip_inside_window b w id l debut fin ld lf t dup :
  fst (post_services_hierarchie new_Date b w) = json (ServiceJson t dup) →
  heureDebut b = Some debut → heureFin b = Some fin →
  Js.is_HHMM debut = true → Js.is_HHMM fin = true →
  ligneId b = Some id → lignes (db w) !! id = Some l →
  ligne_heureDebut l = Some ld → ligne_heureFin l = Some lf →
  Js.is_HHMM ld = true → Js.is_HHMM lf = true →
  ∃ s e ls le,
    Js.minutes_of debut = Js.Num s ∧ Js.minutes_of fin = Js.Num e
    ∧ Js.minutes_of ld = Js.Num ls ∧ Js.minutes_of lf = Js.Num le
    ∧ 0 ≤ s < 1440 ∧ 0 ≤ e < 1440 ∧ 0 ≤ ls < 1440 ∧ 0 ≤ le < 1440
    ∧ (le < ls → ls ≤ s ∨ s ≤ le)
    ∧ (ls ≤ le → ls ≤ s ∧ e ≤ le ∧ (s ≤ e → s ≤ le)).
Proof.
  intros Hans Hdeb Hfi Wd Wf Hid Hl Hd Hf Wld Wlf.
  destruct (minutes_of_HHMM _ Wd) as (s & Mdeb & Rs).
  destruct (minutes_of_HHMM _ Wf) as (e & Mfi & Re).
  destruct (minutes_of_HHMM _ Wld) as (ls & Md & Rls).
  destruct (minutes_of_HHMM _ Wlf) as (le & Mf & Rle).
  exists s, e, ls, le. do 8 (split; [assumption|]).
  assert (minutesDebut b = Js.Num s) as Ms
    by (unfold minutesDebut; rewrite Hdeb; exact Mdeb).
  assert (minutesFin b = Js.Num e) as Me
    by (unfold minutesFin; rewrite Hfi; exact Mfi).
  destruct (required b) eqn:Hreq;
    [|rewrite (post_missing new_Date b w Hreq) in Hans; discriminate].
  destruct (duration_error (minutesDebut b) (minutesFin b)) as [msg|] eqn:Hdur;
    [rewrite (post_duration new_Date b w msg Hreq Hdur) in Hans; discriminate|].
  rewrite (post_checked new_Date b w Hreq Hdur), Hid in Hans.
  unfold after_lookup in Hans.
  destruct (ligne_findUnique (Some id) w) as [[ligne|err] w0] eqn:E1;
    [|discriminate].
  assert (ligne = Some l) as ->.
  { revert E1. unfold ligne_findUnique, call.
    destruct (faults w) as [|[] fs]; cbn; rewrite ?Hl; congruence. }
  rewrite Ms, Me in Hans.
  destruct (window_error (Some l) (Js.Num s) (Js.Num e)) eqn:Hw; [discriminate|].
  exact (window_pass_inside l ld lf ls le s e Hd Hf Md Mf Hw).
Qed.

Lemma minutes_of_one_piece s : Js.split_colon s = [s] → Js.minutes_of s = Js.NaN.
Proof.
  intros H. unfold Js.minutes_of. rewrite H. cbn.
  destruct (Js.Number s); reflexivity.
Qed.

Lemma window_error_NaN l :
  window_error (Some l) Js.NaN Js.NaN
  = if Js.truthy (ligne_heureDebut l) && Js.truthy (ligne_heureFin l)
       && Js.lt (Js.minutes_of (text (ligne_heureFin l)))
                (Js.minutes_of (text (ligne_heureDebut l)))
    then Some (msg_start_outside l)
    else None.
Proof.
  unfold window_error.
  destruct (Js.truthy (ligne_heureDebut l) && Js.truthy (ligne_heureFin l));
    [|reflexivity].
  destruct (Js.minutes_of (text (ligne_heureDebut l))) as [|ld],
           (Js.minutes_of (text (ligne_heureFin l))) as [|lf];
    cbn; try reflexivity.
  all: destruct (lf <? ld); reflexivity.
Qed.

(** Times written without a colon (["0900"], ["noon"]) have no minute
    component, so both are [NaN] whatever their text, and are never
    caught by the duration guards.  On a stored Line whose hours, when it
    has both, are well-formed "HH:MM": with a same-day window, or with no
    window at all, such a request passes the whole validation; only a
    window that runs past midnight refuses it, for its start. *)
Theorem times_without_colon_skip_validation b w debut fin id l :
  Js.truthy (sensId b) = true →
  heureDebut b = Some debut → heureFin b = Some fin →
  debut ≠ EmptyString → fin ≠ EmptyString →
  Js.split_colon debut = [debut] → Js.split_colon fin = [fin] →
  ligneId b = Some id → lignes (db w) !! id = Some l →
  (Js.truthy (ligne_heureDebut l) && Js.truthy (ligne_heureFin l) = true →
   Js.is_HHMM (text (ligne_heureDebut l)) = true
   ∧ Js.is_HHMM (text (ligne_heureFin l)) = true) →
  head (faults w) ≠ Some true →
  duration_error (minutesDebut b) (minutesFin b) = None
  ∧ (if Js.truthy (ligne_heureDebut l) && Js.truthy (ligne_heureFin l)
        && Js.lt (Js.minutes_of (text (ligne_heureFin l)))
                 (Js.minutes_of (text (ligne_heureDebut l)))
     then fst (post_services_hierarchie new_Date b w)
          = bad_request (msg_start_outside l)
     else passes_validation b w).
Proof.
  intros Hs Hd Hf Nd Nf Cd Cf Hid Hl _ Hfault.
  assert (required b = true) as Hreq.
  { unfold required. rewrite Hs, Hd, Hf. cbn.
    destruct debut; [contradiction|]. destruct fin; [contradiction|]. reflexivity. }
  assert (minutesDebut b = Js.NaN) as Md
    by (unfold minutesDebut; rewrite Hd; apply minutes_of_one_piece, Cd).
  assert (minutesFin b = Js.NaN) as Mf
    by (unfold minutesFin; rewrite Hf; apply minutes_of_one_piece, Cf).
  assert (duration_error (minutesDebut b) (minutesFin b) = None) as Hdur
    by (rewrite Md, Mf; reflexivity).
  split; [exact Hdur|].
  pose proof (post_with_line new_Date b w id l Hreq Hdur Hid Hl Hfault) as Hpost.
  cbv zeta in Hpost.
  assert (fst (ligne_findUnique (ligneId b) w) = Ok (Some l)) as Hlook
    by (rewrite Hid, (lookup_found w id l Hfault Hl); reflexivity).
  rewrite Md, Mf, window_error_NaN in Hpost.
  destruct (Js.truthy (ligne_heureDebut l) && Js.truthy (ligne_heureFin l)
            && Js.lt (Js.minutes_of (text (ligne_heureFin l)))
                     (Js.minutes_of (text (ligne_heureDebut l)))) eqn:Hwrap.
  - rewrite Hpost. reflexivity.
  - split; [exact Hreq|]. split; [exact Hdur|]. exists (Some l).
    split; [exact Hlook|]. rewrite Md, Mf, window_error_NaN, Hwrap. reflexivity.
Qed.

End TripCreationMore.

(* ===================================================================== *)
(** ** Further properties of the check-in handler *)
(* ===================================================================== *)

Section CheckInMore.
Import Prisma Handlers.

(** The list of missing fields names exactly the required fields that are
    absent or empty; when it is not empty the answer is a 400 carrying
    it and nothing was asked of the store. *)
Theorem checkin_missing_fields b w :
  (∀ name, name ∈ missing b ↔
           (name = "serviceId"%string ∧ Js.truthy (serviceId b) = false)
           ∨ (name = "conducteurId"%string ∧ Js.truthy (conducteurId b) = false)
           ∨ (name = "validatedBy"%string ∧ Js.truthy (validatedBy b) = false))
  ∧ (missing b ≠ [] →
     post_pointages b w
     = (mkResponse 400 (MissingJson "Champs requis manquants" (missing b)), w)).
Proof.
  split.
  - intros name. unfold missing.
    destruct (Js.truthy (serviceId b)), (Js.truthy (conducteurId b)),
      (Js.truthy (validatedBy b)); cbn;
      rewrite ?elem_of_cons, ?elem_of_nil;
      (split; [intros H | intros [[-> H]|[[-> H]|[-> H]]]]);
      try discriminate; tauto.
  - intros H. unfold post_pointages, try_catch, ret.
    destruct (missing b); [contradiction|reflexivity].
Qed.

(** A check-in for a trip the store does not hold, or whose update the
    store rejects, is answered 400: the create is never called and the
    stored state is what it was. *)
Theorem checkin_unknown_service b w :
  missing b = [] →
  update_row (text (serviceId b)) (set_statut "Terminée") (services (db w)) = None
  ∨ head (faults w) = Some true →
  status (fst (post_pointages b w)) = 400
  ∧ db (snd (post_pointages b w)) = db w
  ∧ log (snd (post_pointages b w)) = log w ++ [ServiceUpdate].
Proof.
  intros Hm H. unfold post_pointages, try_catch, bind, ret. rewrite Hm.
  unfold service_update_statut, call.
  destruct (faults w) as [|[] fs] eqn:Ef; cbn in H |- *; auto.
  all: destruct H as [H|H]; [|discriminate].
  all: rewrite H; cbn; auto.
Qed.



End CheckInMore.

(* ===================================================================== *)
(** ** Readiness, route by route *)
(* ===================================================================== *)

Section ReadinessMore.
Import Readiness Routes.

Variables cors_package express_json : Middleware.

(** Behind the CORS and body-parsing middlewares, a request reaches the
    routes exactly when the flag is up or its path is one of the five on
    the allowlist: those five are served even while the store is not
    ready, and once ready the guard stops nothing. *)
Theorem routes_reached_iff_ready_or_allowlisted prismaReady req :
  method req ≠ "OPTIONS"%string →
  cors_package req = Next → express_json req = Next →
  (before_routes cors_package express_json prismaReady req = Next
   ↔ prismaReady = true ∨ path req ∈ noDbPaths)
  ∧ (path req ∈ noDbPaths ↔
     path req = "/"%string ∨ path req = "/health"%string
     ∨ path req = "/api/today"%string ∨ path req = "/api/server-time"%string
     ∨ path req = "/api/cors-test"%string).
Proof.
  intros Hm Hc Hj.
  split; [|unfold noDbPaths; rewrite !elem_of_union, !elem_of_singleton; tauto].
  unfold before_routes. cbn [run_stack]. rewrite Hc, Hj. unfold cors_headers.
  destruct (String.eqb_spec (method req) "OPTIONS"); [contradiction|].
  unfold db_guard. destruct prismaReady; cbn; [tauto|].
  destruct (bool_decide_reflect (path req ∈ noDbPaths)); cbn; split;
    auto; try discriminate.
  intros [?|?]; [discriminate|contradiction].
Qed.

(** The list handlers' own readiness test can never fire: a request for
    a path off the allowlist that gets as far as the handler finds the
    flag up, so [NotReady503] is never the reply. *)
Theorem list_handler_check_is_dead prismaReady found req :
  path req ∉ noDbPaths →
  get_list cors_package express_json prismaReady found req ≠ NotReady503
  ∧ (before_routes cors_package express_json prismaReady req = Next →
     prismaReady = true).
Proof.
  intros Hp. unfold get_list, before_routes. cbn [run_stack].
  destruct prismaReady.
  - split; [|reflexivity].
    destruct (cors_package req), (cors_headers req), (express_json req),
      (db_guard true req); cbn; destruct found; discriminate.
  - rewrite (db_guard_closed req Hp).
    destruct (cors_package req), (cors_headers req), (express_json req);
      split; discriminate.
Qed.

(** A failed start is never repaired: whatever requests follow, the flag
    stays down, so every request off the allowlist is still stopped
    before the routes, even when the store is back and [/health], which
    is on the allowlist, answers 200. *)
Theorem failed_probe_is_final constructed reqs req :
  path req ∉ noDbPaths →
  prismaReady (run constructed false reqs) = false
  ∧ before_routes cors_package express_json
      (prismaReady (run constructed false reqs)) req ≠ Next
  ∧ health (run true false reqs) true = 200.
Proof.
  intros Hp.
  assert (run constructed false reqs = mkProcess constructed false) as Hrun.
  { unfold run. rewrite requests_keep_flag. cbn. unfold startServer, load. cbn.
    destruct constructed; reflexivity. }
  rewrite Hrun. cbn [prismaReady]. split; [reflexivity|]. split.
  - unfold before_routes. cbn [run_stack]. rewrite (db_guard_closed req Hp).
    destruct (cors_package req), (cors_headers req), (express_json req);
      discriminate.
  - assert (run true false reqs = mkProcess true false) as ->.
    { unfold run. rewrite requests_keep_flag. reflexivity. }
    reflexivity.
Qed.

End ReadinessMore.

(* ===================================================================== *)
(** ** Trip update against trip creation *)
(* ===================================================================== *)

Section UpdateMore.
Import Prisma Handlers Updates.

Lemma update_row_first id f pre s0 post :
  (∀ x, x ∈ pre → service_id x ≠ id) → service_id s0 = id →
  update_row id f (pre ++ s0 :: post) = Some (f s0, pre ++ f s0 :: post).
Proof.
  intros Hpre Hid. induction pre as [|x pre IH]; cbn.
  - rewrite Hid, String.eqb_refl. reflexivity.
  - destruct (String.eqb_spec (service_id x) id) as [E|E].
    + exfalso. apply (Hpre x); [left|exact E].
    + rewrite IH; [reflexivity|]. intros y Hy. apply Hpre. now right.
Qed.

Lemma update_row_none id f l :
  (∀ x, x ∈ l → service_id x ≠ id) → update_row id f l = None.
Proof.
  intros H. induction l as [|x l IH]; cbn; [reflexivity|].
  destruct (String.eqb_spec (service_id x) id) as [E|E].
  - exfalso. apply (H x); [left|exact E].
  - rewrite IH; [reflexivity|]. intros y Hy. apply H. now right.
Qed.

(** Updating a stored trip is one call of the store and no validation:
    whatever texts the request carries for the two times and the status
    are written as they are, the fields it leaves out keep their stored
    value, no other row and no other column changes, and the Line is not
    even looked up. *)
Theorem update_writes_without_validation id b w pre s0 post :
  services (db w) = pre ++ s0 :: post →
  (∀ x, x ∈ pre → service_id x ≠ id) → service_id s0 = id →
  head (faults w) ≠ Some true →
  put_services_hierarchie id b w
  = (json (ServiceJson (patch b s0) false),
     mkWorld (mkDb (lignes (db w)) (pre ++ patch b s0 :: post) (pointages (db w)))
             (tail (faults w)) (log w ++ [ServiceUpdate]) (clock w))
  ∧ service_heureDebut (patch b s0)
    = default (service_heureDebut s0) (Updates.heureDebut b)
  ∧ service_heureFin (patch b s0)
    = default (service_heureFin s0) (Updates.heureFin b)
  ∧ service_statut (patch b s0) = default (service_statut s0) (Updates.statut b)
  ∧ service_id (patch b s0) = service_id s0
  ∧ service_sensId (patch b s0) = service_sensId s0
  ∧ service_ligneId (patch b s0) = service_ligneId s0
  ∧ service_date (patch b s0) = service_date s0.
Proof.
  intros Hl Hpre Hid Hf. split; [|repeat split].
  unfold put_services_hierarchie, try_catch, bind, ret, service_update.
  rewrite call_runs by exact Hf. rewrite Hl.
  rewrite (update_row_first id (patch b) pre s0 post Hpre Hid). reflexivity.
Qed.

(** An update for a key no stored trip has is answered 400 and changes
    nothing. *)
Theorem update_unknown_trip id b w :
  (∀ x, x ∈ services (db w) → service_id x ≠ id) →
  status (fst (put_services_hierarchie id b w)) = 400
  ∧ db (snd (put_services_hierarchie id b w)) = db w.
Proof.
  intros H. unfold put_services_hierarchie, try_catch, bind, ret, service_update, call.
  rewrite (update_row_none id (patch b) _ H).
  destruct (faults w) as [|[] fs]; cbn; auto.
Qed.

End UpdateMore.

(* ===================================================================== *)
(** ** Stops: the automatic order number *)
(* ===================================================================== *)

Section ArretsOrder.
Import Arrets.

Lemma max_ordre_snoc trajet l a :
  max_ordre trajet (l ++ [a])
  = if String.eqb (arret_trajetId a) trajet then
      match max_ordre trajet l with
      | Some m => Some (Z.max m (arret_ordre a))
      | None => Some (arret_ordre a)
      end
    else max_ordre trajet l.
Proof. unfold max_ordre. rewrite fold_left_app. reflexivity. Qed.



Lemma ordres_snoc trajet l a :
  ordres trajet (l ++ [a])
  = ordres trajet l
    ++ (if String.eqb (arret_trajetId a) trajet then [arret_ordre a] else []).
Proof.
  unfold ordres. rewrite List.filter_app, map_app. cbn.
  destruct (String.eqb (arret_trajetId a) trajet); reflexivity.
Qed.

(** The handler on a request that leaves the order number out. *)
Lemma post_arrets_auto b w t :
  trajetId b = Some t → t ≠ EmptyString → Js.truthy (nom b) = true →
  ordre b = None →
  head (Client.plan w) ≠ Some true →
  head (tail (Client.plan w)) ≠ Some true →
  post_arrets b w
  = let a := mkArret (Prisma.fresh_id (length (Client.store w))) t
               (Handlers.text (nom b))
               (if Js.truthy (adresse b) then adresse b else None)
               (or_zero (max_ordre t (Client.store w)) + 1)
               (or_zero (tempsArriveeAntecedent b)) in
    (ArretJson a,
     Client.mkWorld (Client.store w ++ [a]) (tail (tail (Client.plan w)))
                    (Client.calls w ++ [ArretAggregate; ArretCreate])).
Proof.
  intros Ht Hne Hn Ho Hp1 Hp2.
  unfold post_arrets, Client.try_catch, Client.bind, Client.ret,
    arret_aggregate_max, arret_create, Client.call.
  rewrite Ht, Hn, Ho. cbn [Js.truthy Handlers.text].
  destruct t as [|c t]; [contradiction|]. cbn [String.eqb negb orb].
  destruct (Client.plan w) as [|[] [|[] fs]]; cbn in Hp1, Hp2 |- *;
    try congruence; rewrite <- app_assoc; reflexivity.
Qed.


(** The greatest order number of an itinerary whose stops are numbered
    1 to [k]. *)
Lemma max_ordre_numbered trajet l k :
  ordres trajet l = map Z.of_nat (seq 1 k) →
  max_ordre trajet l = match k with O => None | S _ => Some (Z.of_nat k) end.
Proof.
  revert k. induction l as [|a l IH] using rev_ind; intros k.
  - destruct k; [reflexivity|discriminate].
  - rewrite ordres_snoc, max_ordre_snoc.
    destruct (String.eqb (arret_trajetId a) trajet).
    + destruct k as [|k];
        [intros H; symmetry in H; now apply app_cons_not_nil in H|].
      rewrite seq_S, map_app. cbn [map]. intros H.
      apply app_inj_tail in H as [H Ha]. rewrite (IH k H), Ha.
      destruct k; [reflexivity|]. f_equal. lia.
    + rewrite app_nil_r. apply IH.
Qed.

(** Stops created one after the other without an order number, for an
    itinerary that has none yet and with no storage failure, are numbered
    1, 2, 3, ... in the order of the requests. *)
Theorem consecutive_stops_are_numbered bs w t :
  Forall (λ b, trajetId b = Some t ∧ Js.truthy (nom b) = true ∧ ordre b = None) bs →
  t ≠ EmptyString →
  Client.plan w = [] →
  ordres t (Client.store w) = [] →
  ordres t (Client.store (post_arrets_all bs w))
  = map Z.of_nat (seq 1 (length bs)).
Proof.
  intros Hbs Hne Hplan Hempty.
  assert (∀ bs w k,
            Forall (λ b, trajetId b = Some t ∧ Js.truthy (nom b) = true
                         ∧ ordre b = None) bs →
            Client.plan w = [] →
            ordres t (Client.store w) = map Z.of_nat (seq 1 k) →
            ordres t (Client.store (post_arrets_all bs w))
            = map Z.of_nat (seq 1 (k + length bs))) as Hgen.
  { clear bs w Hbs Hplan Hempty.
    induction bs as [|b bs IH]; intros w k Hbs Hplan Hk.
    - cbn. rewrite Nat.add_0_r. exact Hk.
    - apply Forall_cons in Hbs as [(Ht & Hn & Ho) Hbs].
      unfold post_arrets_all. cbn [fold_left].
      rewrite (post_arrets_auto b w t Ht Hne Hn Ho)
        by (rewrite Hplan; discriminate).
      cbv zeta. cbn [snd]. fold (post_arrets_all bs).
      cbn [length]. rewrite Nat.add_succ_r, <- Nat.add_succ_l.
      apply IH; [exact Hbs | cbn; rewrite Hplan; reflexivity |].
      cbn [Client.store]. rewrite ordres_snoc. cbn [arret_trajetId arret_ordre].
      rewrite String.eqb_refl, Hk, (max_ordre_numbered t _ k Hk), seq_S, map_app.
      cbn [map]. do 2 f_equal. destruct k; cbn [or_zero]; lia. }
  apply (Hgen bs w 0%nat Hbs Hplan Hempty).
Qed.

End ArretsOrder.

(* ===================================================================== *)
(** ** Default calendars: one run, two runs, a run cut short *)
(* ===================================================================== *)

Section CalendarsInit.
Import Calendars.

Variable defaultCalendarJson : string.

Lemma set_calendrier_at pre x rest :
  ligne_id x ∉ map ligne_id pre →
  set_calendrier defaultCalendarJson (ligne_id x) (pre ++ x :: rest)
  = Some (pre ++ mkLigne (ligne_id x) (Some defaultCalendarJson) :: rest).
Proof.
  intros Hpre. induction pre as [|y pre IH]; cbn.
  - rewrite String.eqb_refl. reflexivity.
  - destruct (String.eqb_spec (ligne_id y) (ligne_id x)) as [E|E].
    + exfalso. apply Hpre. cbn. rewrite E. left.
    + rewrite IH; [reflexivity|]. intros H. apply Hpre. cbn. now right.
Qed.

(** The loop over the rest of the snapshot, the rows before it already
    treated, with no storage failure ahead. *)
Lemma init_loop_run rest pre n cs :
  NoDup (map ligne_id (pre ++ rest)) →
  init_loop defaultCalendarJson rest n (Client.mkWorld (pre ++ rest) [] cs)
  = (Prisma.Ok (n + length (List.filter lacks_calendar rest))%nat,
     Client.mkWorld (pre ++ map (with_calendar defaultCalendarJson) rest) []
       (cs ++ replicate (length (List.filter lacks_calendar rest)) LigneUpdate)).
Proof.
  revert pre n cs. induction rest as [|x rest IH]; intros pre n cs Hnd.
  - cbn. rewrite Nat.add_0_r, !app_nil_r. reflexivity.
  - cbn [init_loop List.filter map].
    assert (lacks_calendar x = negb (Js.truthy (ligne_calendrierJson x))) as Hx
      by reflexivity.
    rewrite !Hx. unfold with_calendar at 1.
    destruct (Js.truthy (ligne_calendrierJson x)) eqn:Ex; cbn [negb].
    + replace (pre ++ x :: rest) with ((pre ++ [x]) ++ rest) in *
        by (rewrite <- app_assoc; reflexivity).
      rewrite (IH (pre ++ [x]) n cs Hnd), <- app_assoc. reflexivity.
    + unfold Client.bind, ligne_update, Client.call. cbn [Client.plan Client.store].
      rewrite set_calendrier_at.
      2: { rewrite map_app in Hnd. apply NoDup_app in Hnd as (_ & Hnd & _).
           intros Hin. apply (Hnd _ Hin). cbn. left. }
      cbn [tail Client.calls].
      replace (pre ++ mkLigne (ligne_id x) (Some defaultCalendarJson) :: rest)
        with ((pre ++ [mkLigne (ligne_id x) (Some defaultCalendarJson)]) ++ rest)
        by (rewrite <- app_assoc; reflexivity).
      rewrite IH.
      * cbn [length replicate]. rewrite <- !app_assoc, Nat.add_succ_r. reflexivity.
      * rewrite <- app_assoc. cbn. rewrite map_app in *. exact Hnd.
Qed.

Lemma post_init_run w :
  Client.plan w = [] → NoDup (map ligne_id (Client.store w)) →
  post_init_calendars defaultCalendarJson w
  = (InitJson (message (length (List.filter lacks_calendar (Client.store w)))),
     Client.mkWorld (map (with_calendar defaultCalendarJson) (Client.store w)) []
       (Client.calls w ++ LigneFindMany
          :: replicate (length (List.filter lacks_calendar (Client.store w)))
               LigneUpdate)).
Proof.
  intros Hp Hnd. unfold post_init_calendars, Client.try_catch, Client.bind,
    ligne_findMany, Client.call.
  rewrite Hp. cbn [tail].
  rewrite (init_loop_run (Client.store w) [] 0); [|exact Hnd].
  cbn. rewrite <- app_assoc. reflexivity.
Qed.

(** With no storage failure, one run gives the default calendar to every
    Line that has none and touches no other: the message counts the Lines
    that lacked one, and the run makes one update per such Line. *)
Theorem init_calendars_fills_the_missing w :
  Client.plan w = [] → NoDup (map ligne_id (Client.store w)) →
  let n := length (List.filter lacks_calendar (Client.store w)) in
  fst (post_init_calendars defaultCalendarJson w) = InitJson (message n)
  ∧ Client.store (snd (post_init_calendars defaultCalendarJson w))
    = map (with_calendar defaultCalendarJson) (Client.store w)
  ∧ Client.calls (snd (post_init_calendars defaultCalendarJson w))
    = Client.calls w ++ LigneFindMany :: replicate n LigneUpdate
  ∧ (∀ x, x ∈ Client.store w → lacks_calendar x = false →
          with_calendar defaultCalendarJson x = x)
  ∧ (∀ x, x ∈ Client.store w → lacks_calendar x = true →
          with_calendar defaultCalendarJson x
          = mkLigne (ligne_id x) (Some defaultCalendarJson)).
Proof.
  intros Hp Hnd n. rewrite (post_init_run w Hp Hnd). cbn.
  repeat split; try reflexivity.
  - intros x _. unfold lacks_calendar, with_calendar.
    destruct (Js.truthy _); [reflexivity|discriminate].
  - intros x _. unfold lacks_calendar, with_calendar.
    destruct (Js.truthy _); [discriminate|reflexivity].
Qed.

Lemma with_calendar_has x :
  defaultCalendarJson ≠ EmptyString →
  Js.truthy (ligne_calendrierJson (with_calendar defaultCalendarJson x)) = true
  ∧ ligne_id (with_calendar defaultCalendarJson x) = ligne_id x.
Proof.
  intros Hne. unfold with_calendar.
  destruct (Js.truthy (ligne_calendrierJson x)) eqn:Ex; [auto|]. cbn.
  destruct defaultCalendarJson; [contradiction|auto].
Qed.

Lemma with_calendar_settles l :
  defaultCalendarJson ≠ EmptyString →
  List.filter lacks_calendar (map (with_calendar defaultCalendarJson) l) = []
  ∧ map (with_calendar defaultCalendarJson)
      (map (with_calendar defaultCalendarJson) l)
    = map (with_calendar defaultCalendarJson) l
  ∧ map ligne_id (map (with_calendar defaultCalendarJson) l) = map ligne_id l.
Proof.
  intros Hne. induction l as [|x l (IH1 & IH2 & IH3)]; [auto|].
  destruct (with_calendar_has x Hne) as [Ht Hid].
  cbn [map List.filter]. unfold lacks_calendar at 1. rewrite Ht. cbn [negb].
  rewrite IH1, IH2, IH3, Hid. repeat split. f_equal.
  unfold with_calendar at 1. rewrite Ht. reflexivity.
Qed.

(** The run is idempotent: after a run without storage failure, a second
    one finds nothing to do, says so, makes no update and leaves every
    Line as the first run left it. *)
Theorem init_calendars_twice w :
  defaultCalendarJson ≠ EmptyString →
  Client.plan w = [] → NoDup (map ligne_id (Client.store w)) →
  let w1 := snd (post_init_calendars defaultCalendarJson w) in
  fst (post_init_calendars defaultCalendarJson w1) = InitJson (message 0)
  ∧ Client.store (snd (post_init_calendars defaultCalendarJson w1))
    = Client.store w1
  ∧ Client.calls (snd (post_init_calendars defaultCalendarJson w1))
    = Client.calls w1 ++ [LigneFindMany].
Proof.
  intros Hne Hp Hnd. cbv zeta. rewrite (post_init_run w Hp Hnd). cbn [snd].
  destruct (with_calendar_settles (Client.store w) Hne) as (H1 & H2 & H3).
  rewrite post_init_run; cbn [Client.plan Client.store Client.calls];
    [|reflexivity|rewrite H3; exact Hnd].
  rewrite H1, H2. cbn. auto.
Qed.

Lemma init_loop_struck j rest pre n cs fs :
  Forall (λ x, lacks_calendar x = true) rest →
  NoDup (map ligne_id (pre ++ rest)) →
  (j < length rest)%nat →
  init_loop defaultCalendarJson rest n
    (Client.mkWorld (pre ++ rest) (replicate j false ++ true :: fs) cs)
  = (Prisma.Throw "PrismaClientKnownRequestError",
     Client.mkWorld
       (pre ++ map (with_calendar defaultCalendarJson) (take j rest) ++ drop j rest)
       fs (cs ++ replicate (S j) LigneUpdate)).
Proof.
  revert rest pre n cs.
  induction j as [|j IH]; intros [|x rest] pre n cs Hall Hnd Hj; cbn in Hj; try lia.
  - apply Forall_cons in Hall as [Hx _]. unfold lacks_calendar in Hx.
    cbn [init_loop]. destruct (Js.truthy (ligne_calendrierJson x)); [discriminate|].
    reflexivity.
  - apply Forall_cons in Hall as [Hx Hall]. pose proof Hx as Hx'.
    unfold lacks_calendar in Hx.
    cbn [init_loop]. destruct (Js.truthy (ligne_calendrierJson x)) eqn:Ex;
      [discriminate|].
    unfold Client.bind, ligne_update, Client.call.
    cbn [Client.plan Client.store replicate app].
    rewrite set_calendrier_at.
    2: { rewrite map_app in Hnd. apply NoDup_app in Hnd as (_ & Hnd & _).
         intros Hin. apply (Hnd _ Hin). cbn. left. }
    cbn [tail Client.calls].
    replace (pre ++ mkLigne (ligne_id x) (Some defaultCalendarJson) :: rest)
      with ((pre ++ [mkLigne (ligne_id x) (Some defaultCalendarJson)]) ++ rest)
      by (rewrite <- app_assoc; reflexivity).
    rewrite IH; [| exact Hall | | lia].
    + cbn [take drop map]. unfold with_calendar at 2. rewrite Ex.
      rewrite <- !app_assoc. reflexivity.
    + rewrite <- app_assoc. cbn. rewrite map_app in *. exact Hnd.
Qed.

(** The run is not all-or-nothing.  When no Line has a calendar and the
    store rejects the update of the Line at position [j], the answer is a
    400 and the [j] Lines before it keep the calendar they were just
    given, while that Line and those after it still have none. *)
Theorem init_calendars_cut_short w j fs :
  Forall (λ x, lacks_calendar x = true) (Client.store w) →
  NoDup (map ligne_id (Client.store w)) →
  (j < length (Client.store w))%nat →
  Client.plan w = false :: replicate j false ++ true :: fs →
  fst (post_init_calendars defaultCalendarJson w)
  = ErrorJson 400 "PrismaClientKnownRequestError"
  ∧ Client.store (snd (post_init_calendars defaultCalendarJson w))
    = map (with_calendar defaultCalendarJson) (take j (Client.store w))
      ++ drop j (Client.store w)
  ∧ Client.calls (snd (post_init_calendars defaultCalendarJson w))
    = Client.calls w ++ LigneFindMany :: replicate (S j) LigneUpdate.
Proof.
  intros Hall Hnd Hj Hp.
  unfold post_init_calendars, Client.try_catch, Client.bind, ligne_findMany,
    Client.call.
  rewrite Hp. cbn [tail].
  rewrite (init_loop_struck j (Client.store w) [] 0); [|assumption..].
  cbn. rewrite <- app_assoc. auto.
Qed.

End CalendarsInit.

(* ===================================================================== *)
(** ** Daily statistics: what the counters count *)
(* ===================================================================== *)

Section DailyStatsCounts.
Import DailyStats.

Lemma count_snoc {A} (f : A → bool) (l : list A) (x : A) :
  count f (l ++ [x]) = (count f l + (if f x then 1 else 0))%nat.
Proof.
  unfold count. rewrite List.filter_app, length_app. cbn.
  destruct (f x); reflexivity.
Qed.

Lemma sum_values_insert {V} (f : V → nat) (m : gmap string V) k v :
  (sum_values f (<[k:=v]> m) + from_option f 0 (m !! k))%nat
  = (sum_values f m + f v)%nat.
Proof.
  unfold sum_values. destruct (m !! k) as [e|] eqn:E; cbn.
  - rewrite <- insert_delete_eq.
    rewrite (map_fold_insert_L _ _ k v (delete k m));
      [|intros; lia|apply lookup_delete_eq].
    rewrite (map_fold_delete_L _ _ k e m); [lia|intros; lia|exact E].
  - rewrite (map_fold_insert_L _ _ k v m); [lia|intros; lia|exact E].
Qed.

Lemma bump_other o k k' : k' ≠ k → bump o k' !! k = o !! k.
Proof.
  intros Hne. unfold bump.
  destruct (o !! k') as [[n|n]|];
    [| |destruct (inherited k'), (String.eqb k' "__proto__")];
    rewrite ?lookup_insert_ne by exact Hne; reflexivity.
Qed.

Lemma bump_same o k :
  bump o k !! k
  = match o !! k with
    | Some (Count n) => Some (Count (S n))
    | Some (Spoilt n) => Some (Spoilt (S n))
    | None =>
        if inherited k then
          if String.eqb k "__proto__" then None else Some (Spoilt 1)
        else Some (Count 1)
    end.
Proof.
  unfold bump. destruct (o !! k) as [[n|n]|] eqn:E;
    [| |destruct (inherited k), (String.eqb k "__proto__")];
    rewrite ?lookup_insert_eq; auto.
Qed.

(** A tally per key, bumped for the elements that pass a guard. *)
Lemma tally_lookup {A} (key : A → string) (guard : A → bool) (l : list A) k :
  fold_left (fun m x => if guard x then bump m (key x) else m)
    l (∅ : gmap string Tally) !! k
  = tallied k (count (fun x => guard x && String.eqb (key x) k) l).
Proof.
  induction l as [|x l IH] using rev_ind; [reflexivity|].
  rewrite fold_left_app, count_snoc. cbn [fold_left].
  destruct (guard x); cbn [andb]; [|rewrite Nat.add_0_r; exact IH].
  destruct (String.eqb (key x) k) eqn:E.
  - apply String.eqb_eq in E. rewrite E, bump_same, IH, Nat.add_1_r.
    unfold tallied.
    destruct (count _ l) as [|n], (inherited k), (String.eqb k "__proto__");
      reflexivity.
  - apply String.eqb_neq in E. rewrite bump_other by exact E.
    rewrite Nat.add_0_r. exact IH.
Qed.

Lemma tally_total {A} (key : A → string) (guard : A → bool) (l : list A) :
  sum_values counted
    (fold_left (fun m x => if guard x then bump m (key x) else m)
       l (∅ : gmap string Tally))
  = count (fun x => guard x && negb (inherited (key x))) l.
Proof.
  induction l as [|x l IH] using rev_ind; [reflexivity|].
  rewrite fold_left_app, count_snoc. cbn [fold_left].
  destruct (guard x); cbn [andb]; [|rewrite Nat.add_0_r; exact IH].
  pose proof (tally_lookup key guard l (key x)) as Hk.
  set (m := fold_left _ l ∅) in *.
  set (c := count (fun x0 => guard x0 && String.eqb (key x0) (key x)) l) in Hk.
  clearbody c.
  pose proof (sum_values_insert counted m (key x)) as Hs.
  unfold bump. rewrite Hk in *. unfold tallied in *.
  destruct c as [|n], (inherited (key x)), (String.eqb (key x) "__proto__");
    cbn [negb from_option counted] in *;
    try (rewrite Nat.add_0_r; exact IH).
  all: match goal with
       | |- sum_values counted (<[_ := ?v]> _) = _ => specialize (Hs v)
       end; cbn [counted] in Hs; lia.
Qed.

(** The three plain tallies, key by key.  Under a key that names no
    inherited property, [vehicleTypes] holds the number of check-ins that
    carry that vehicle type, [validatedByStats] the number validated by
    that role and [lineStats] the number on that Line number, missing
    roles and numbers gathered under ["Inconnu"] and ["??"]; a key no
    check-in has is absent rather than zero.  Under an inherited name
    nothing is counted: [vehicleTypes] and [validatedByStats] hold a text
    there, or nothing under [__proto__], and [lineStats] has no entry.
    The counts of the roles add up to the number of check-ins whose role
    is not such a name, and likewise for the vehicle types. *)
Theorem tallies_count pointages k :
  vehicleTypes pointages !! k
  = tallied k
      (count (fun p => Js.truthy (pointage_vehicleType p)
                       && String.eqb (Handlers.text (pointage_vehicleType p)) k)
         pointages)
  ∧ validatedByStats pointages !! k
    = tallied k (count (fun p => String.eqb (role_of p) k) pointages)
  ∧ lineStats pointages !! k
    = match count (fun p => String.eqb (line_of p) k) pointages with
      | O => None
      | S n => if inherited k then None else Some (mkLineStat k (S n))
      end
  ∧ sum_values counted (validatedByStats pointages)
    = count (fun p => negb (inherited (role_of p))) pointages
  ∧ sum_values counted (vehicleTypes pointages)
    = count (fun p => Js.truthy (pointage_vehicleType p)
                      && negb (inherited (Handlers.text (pointage_vehicleType p))))
        pointages.
Proof.
  split; [|split; [|split; [|split]]].
  - apply (tally_lookup (fun p => Handlers.text (pointage_vehicleType p))
             (fun p => Js.truthy (pointage_vehicleType p))).
  - apply (tally_lookup role_of (fun _ => true)).
  - unfold lineStats.
    induction pointages as [|p l IH] using rev_ind; [reflexivity|].
    rewrite fold_left_app, count_snoc. cbn [fold_left]. unfold count_line at 1.
    cbv zeta.
    destruct (String.eqb (line_of p) k) eqn:E.
    + apply String.eqb_eq in E. rewrite E, Nat.add_1_r.
      destruct (count (fun p0 => String.eqb (line_of p0) k) l) as [|n],
               (inherited k);
        rewrite IH; cbn beta iota; rewrite ?lookup_insert_eq;
        first [reflexivity | exact IH].
    + apply String.eqb_neq in E. rewrite Nat.add_0_r.
      destruct (fold_left count_line l ∅ !! line_of p);
        [|destruct (inherited (line_of p))];
        rewrite ?lookup_insert_ne by exact E; exact IH.
  - apply (tally_total role_of (fun _ => true)).
  - apply (tally_total (fun p => Handlers.text (pointage_vehicleType p))
             (fun p => Js.truthy (pointage_vehicleType p))).
Qed.

Lemma count_and_le {A} (f g : A → bool) (l : list A) :
  (count (fun x => f x && g x) l ≤ count f l)%nat.
Proof.
  unfold count. induction l as [|x l IH]; cbn; [lia|].
  destruct (f x), (g x); cbn; lia.
Qed.

Lemma find_snoc_first {A} (f : A → bool) (l : list A) (x : A) :
  find f (l ++ [x])
  = match find f l with
    | Some y => Some y
    | None => if f x then Some x else None
    end.
Proof.
  induction l as [|y l IH]; cbn; [reflexivity|]. destruct (f y); auto.
Qed.

(** A conductor has an entry exactly when a check-in of the day is
    theirs.  The entry carries the conductor's key, the number of those
    check-ins, how many of them had the licence and how many the
    tachograph checked, never more than the check-ins; the name is read
    from the first of them, with ["Inconnu"] when the relation is
    missing. *)
Theorem conductor_stats_count pointages cid :
  match conductorStats pointages !! cid with
  | Some e =>
      stat_id e = cid
      ∧ stat_pointages e = count (of_conductor cid) pointages
      ∧ stat_permisChecked e
        = count (fun p => of_conductor cid p && pointage_permisChecked p) pointages
      ∧ stat_chronometerChecked e
        = count (fun p => of_conductor cid p && pointage_chronometerChecked p)
            pointages
      ∧ (0 < stat_pointages e)%nat
      ∧ (stat_permisChecked e ≤ stat_pointages e)%nat
      ∧ (stat_chronometerChecked e ≤ stat_pointages e)%nat
      ∧ ∃ p0, find (of_conductor cid) pointages = Some p0
              ∧ stat_nom e
                = or_text (c ← pointage_conducteur p0; conducteur_nom c) "Inconnu"
              ∧ stat_prenom e
                = or_text (c ← pointage_conducteur p0; conducteur_prenom c) ""
  | None => count (of_conductor cid) pointages = 0%nat
  end.
Proof.
  assert (match conductorStats pointages !! cid with
          | Some e =>
              stat_id e = cid
              ∧ stat_pointages e = count (of_conductor cid) pointages
              ∧ stat_permisChecked e
                = count (fun p => of_conductor cid p && pointage_permisChecked p)
                    pointages
              ∧ stat_chronometerChecked e
                = count (fun p => of_conductor cid p
                                  && pointage_chronometerChecked p) pointages
              ∧ (0 < stat_pointages e)%nat
              ∧ ∃ p0, find (of_conductor cid) pointages = Some p0
                      ∧ stat_nom e
                        = or_text (c ← pointage_conducteur p0; conducteur_nom c)
                            "Inconnu"
                      ∧ stat_prenom e
                        = or_text (c ← pointage_conducteur p0; conducteur_prenom c)
                            ""
          | None => count (of_conductor cid) pointages = 0%nat
                    ∧ find (of_conductor cid) pointages = None
          end) as H.
  { unfold conductorStats.
    induction pointages as [|p l IH] using rev_ind;
      [cbn [fold_left]; rewrite lookup_empty; auto|].
    rewrite fold_left_app, !count_snoc, find_snoc_first. cbn [fold_left].
    unfold count_conductor at 1. cbv zeta.
    destruct (of_conductor cid p) eqn:Hp; cbn [andb].
    - apply String.eqb_eq in Hp. rewrite Hp, lookup_insert_eq.
      destruct (fold_left count_conductor l ∅ !! cid) as [e|].
      + destruct IH as (H1 & H2 & H3 & H4 & H5 & p0 & H6 & H7 & H8).
        cbn [stat_id stat_nom stat_prenom stat_pointages stat_permisChecked
             stat_chronometerChecked].
        rewrite H6.
        repeat split; try assumption; try lia;
          try (destruct (pointage_permisChecked p); lia);
          try (destruct (pointage_chronometerChecked p); lia).
        eauto.
      + destruct IH as (H1 & H2).
        cbn [stat_id stat_nom stat_prenom stat_pointages stat_permisChecked
             stat_chronometerChecked].
        rewrite H2.
        assert (∀ g : Pointage → bool,
                  count (fun p0 => of_conductor cid p0 && g p0) l = 0%nat) as Hz.
        { intros g. pose proof (count_and_le (of_conductor cid) g l). lia. }
        rewrite H1, !Hz.
        repeat split; try lia;
          try (destruct (pointage_permisChecked p); reflexivity);
          try (destruct (pointage_chronometerChecked p); reflexivity).
        eauto.
    - apply String.eqb_neq in Hp. rewrite lookup_insert_ne by exact Hp.
      rewrite !Nat.add_0_r.
      destruct (fold_left count_conductor l ∅ !! cid) as [e|].
      + destruct IH as (H1 & H2 & H3 & H4 & H5 & p0 & H6 & H7 & H8).
        rewrite H6. eauto 10.
      + destruct IH as (H1 & H2). rewrite H2. auto. }
  destruct (conductorStats pointages !! cid) as [e|]; [|apply H].
  destruct H as (H1 & H2 & H3 & H4 & H5 & H6).
  repeat split; try assumption.
  - rewrite H2, H3. apply count_and_le.
  - rewrite H2, H4. apply count_and_le.
Qed.

(** Over all the entries, the check-ins add up to the number of
    check-ins of the day, and the two sums the average rates are computed
    from are the numbers of check-ins with the licence and with the
    tachograph checked. *)
Theorem conductor_stats_totals pointages :
  sum_values stat_pointages (conductorStats pointages) = length pointages
  ∧ sum_values stat_permisChecked (conductorStats pointages)
    = count pointage_permisChecked pointages
  ∧ sum_values stat_chronometerChecked (conductorStats pointages)
    = count pointage_chronometerChecked pointages.
Proof.
  unfold conductorStats.
  induction pointages as [|p l (IH1 & IH2 & IH3)] using rev_ind; [auto|].
  rewrite fold_left_app, length_app, !count_snoc. cbn [fold_left length].
  unfold count_conductor at 1 3 5. cbv zeta.
  set (m := fold_left count_conductor l ∅) in *.
  set (k := pointage_conducteurId p).
  repeat split.
  - match goal with
    | |- sum_values ?f (<[k := ?v]> m) = _ =>
        pose proof (sum_values_insert f m k v) as Hs
    end.
    destruct (m !! k); cbn in *; lia.
  - match goal with
    | |- sum_values ?f (<[k := ?v]> m) = _ =>
        pose proof (sum_values_insert f m k v) as Hs
    end.
    destruct (m !! k), (pointage_permisChecked p); cbn in *; lia.
  - match goal with
    | |- sum_values ?f (<[k := ?v]> m) = _ =>
        pose proof (sum_values_insert f m k v) as Hs
    end.
    destruct (m !! k), (pointage_chronometerChecked p); cbn in *; lia.
Qed.

Lemma service_hours_lookup services h :
  fold_left count_service_hour services ∅ !! h
  = match count (service_at h) services with
    | O => None
    | S n => if inherited h then None else Some (mkHourStat (S n) 0)
    end.
Proof.
  induction services as [|s l IH] using rev_ind; [reflexivity|].
  rewrite fold_left_app, count_snoc. cbn [fold_left].
  unfold count_service_hour at 1. cbv zeta. unfold service_at at 2.
  destruct (String.eqb (hour_of (service_heureDebut s)) h) eqn:E.
  - apply String.eqb_eq in E. rewrite E, Nat.add_1_r.
    destruct (count (service_at h) l) as [|n], (inherited h);
      rewrite IH; cbn beta iota; rewrite ?lookup_insert_eq;
      first [reflexivity | exact IH].
  - apply String.eqb_neq in E. rewrite Nat.add_0_r.
    destruct (fold_left count_service_hour l ∅ !! hour_of (service_heureDebut s));
      [|destruct (inherited (hour_of (service_heureDebut s)))];
      rewrite ?lookup_insert_ne by exact E; exact IH.
Qed.

Lemma pointage_hours_lookup pointages m h :
  fold_left count_pointage_hour pointages m !! h
  = match m !! h with
    | Some e =>
        Some (mkHourStat (hour_total e)
                (hour_validated e + count (pointage_at h) pointages))
    | None => None
    end.
Proof.
  revert m. induction pointages as [|p l IH]; intros m.
  - cbn. destruct (m !! h) as [[]|]; [|reflexivity]. cbn. do 2 f_equal. lia.
  - cbn [fold_left]. rewrite IH. unfold count. cbn [List.filter].
    unfold count_pointage_hour.
    destruct (pointage_at h p) eqn:Hp.
    + apply String.eqb_eq in Hp. rewrite Hp.
      destruct (m !! h) as [e|] eqn:Em.
      * rewrite lookup_insert_eq. cbn. do 2 f_equal. lia.
      * rewrite Em. reflexivity.
    + apply String.eqb_neq in Hp.
      destruct (m !! hour_of (pointage_service p ≫= λ s, service_heureDebut s))
        as [e|] eqn:Em; [|reflexivity].
      rewrite lookup_insert_ne by exact Hp. reflexivity.
Qed.

(** An hour that names no inherited property has an entry exactly when a
    trip of the day starts in it.  Its total is the number of those trips
    and its validated count the number of check-ins whose trip starts in
    that hour, which can exceed the total; check-ins for an hour no trip
    of the day starts in are left out, and trips without a start hour are
    gathered under ["??"].  A start whose first piece is an inherited
    name, such as ["constructor:00"], gets no entry however many trips
    have it. *)
Theorem hourly_distribution_counts services pointages h :
  hourlyDistribution services pointages !! h
  = match count (service_at h) services with
    | O => None
    | S n =>
        if inherited h then None
        else Some (mkHourStat (S n) (count (pointage_at h) pointages))
    end.
Proof.
  unfold hourlyDistribution. rewrite pointage_hours_lookup, service_hours_lookup.
  destruct (count (service_at h) services); [reflexivity|].
  destruct (inherited h); reflexivity.
Qed.

End DailyStatsCounts.

(* ===================================================================== *)
(** ** The further properties at sample inputs *)
(* ===================================================================== *)

Section MoreInstances.
Import Prisma Handlers Spec Examples.

(** 22:00 to 05:00 is 420 minutes round the clock. *)
Lemma dureeService_at_22h_05h :
  dureeService (Js.Num 1320) (Js.Num 300) = Js.Num ((300 - 1320) mod 1440)
  ∧ 0 ≤ (300 - 1320) mod 1440 < 1440.
Proof. apply dureeService_round_the_clock; lia. Defined.

Lemma minutes_of_at_22h_05h :
  (∃ m, Js.minutes_of "22:00" = Js.Num m ∧ 0 ≤ m < 1440)
  ∧ (Js.minutes_of "22:00" = Js.minutes_of "05:00" ↔ "22:00"%string = "05:00"%string).
Proof. apply minutes_of_HHMM_faithful; reflexivity. Defined.

(** 09:00 to 10:00 on Line L1, created. *)
Lemma answered_trip_duration_at_09h_10h :
  ∃ d, dureeService (Js.minutes_of "09:00") (Js.minutes_of "10:00") = Js.Num d
       ∧ 1 ≤ d ≤ 600.
Proof.
  apply (answered_trip_duration epoch (trip "09:00" "10:00" None)
           (world_with_line "08:00" "20:00" []) "09:00" "10:00"
           planned_trip false eq_refl eq_refl eq_refl eq_refl).
  vm_compute. reflexivity.
Defined.

Lemma created_trip_fields_at_09h_10h :
  let b := trip "09:00" "10:00" None in
  let w := world_with_line "08:00" "20:00" [] in
  service_sensId planned_trip = sensId b
  ∧ service_ligneId planned_trip = ligneId b
  ∧ Some (service_heureDebut planned_trip) = heureDebut b
  ∧ Some (service_heureFin planned_trip) = heureFin b
  ∧ service_statut planned_trip
    = (if Js.truthy (statut b) then text (statut b) else "Planifiée")
  ∧ Some (service_date planned_trip)
    = (if Js.truthy (date b) then epoch (text (date b)) else Some (clock w))
  ∧ services (db (snd (post_services_hierarchie epoch b w)))
    = services (db w) ++ [planned_trip]
  ∧ lignes (db (snd (post_services_hierarchie epoch b w))) = lignes (db w)
  ∧ pointages (db (snd (post_services_hierarchie epoch b w))) = pointages (db w).
Proof.
  cbv zeta.
  apply (created_trip_fields epoch (trip "09:00" "10:00" None)
           (world_with_line "08:00" "20:00" []) planned_trip).
  vm_compute. reflexivity.
Defined.

(** The same request a second time. *)
Lemma retry_at_09h_10h :
  let b := trip "09:00" "10:00" None in
  let w1 := snd (post_services_hierarchie epoch b (world_with_line "08:00" "20:00" [])) in
  post_services_hierarchie epoch b w1
  = (json (ServiceJson planned_trip true),
     mkWorld (db w1) [] (log w1 ++ [LigneFindUnique; ServiceFindFirst]) (clock w1)).
Proof.
  cbv zeta.
  apply (retry_returns_created_trip epoch (trip "09:00" "10:00" None)
           (world_with_line "08:00" "20:00" []) planned_trip).
  - reflexivity.
  - vm_compute. reflexivity.
Defined.

(** The created trip 09:00 to 10:00 on the window 08:00 to 20:00. *)
Lemma answered_trip_inside_window_at_09h_10h :
  ∃ s e ls le,
    Js.minutes_of "09:00" = Js.Num s ∧ Js.minutes_of "10:00" = Js.Num e
    ∧ Js.minutes_of "08:00" = Js.Num ls ∧ Js.minutes_of "20:00" = Js.Num le
    ∧ 0 ≤ s < 1440 ∧ 0 ≤ e < 1440 ∧ 0 ≤ ls < 1440 ∧ 0 ≤ le < 1440
    ∧ (le < ls → ls ≤ s ∨ s ≤ le)
    ∧ (ls ≤ le → ls ≤ s ∧ e ≤ le ∧ (s ≤ e → s ≤ le)).
Proof.
  exact (answered_trip_inside_window epoch (trip "09:00" "10:00" None)
           (world_with_line "08:00" "20:00" []) "L1"
           (Prisma.mkLigne "L1" (Some "08:00"%string) (Some "20:00"%string))
           "09:00" "10:00" "08:00" "20:00" planned_trip false
           ltac:(vm_compute; reflexivity) eq_refl eq_refl eq_refl eq_refl
           eq_refl ltac:(vm_compute; reflexivity) eq_refl eq_refl eq_refl eq_refl).
Defined.

(** ["0900"] to ["1000"] on the same-day window 08:00 to 20:00 passes the
    validation. *)
Lemma times_without_colon_at_0900_1000 :
  passes_validation (trip "0900" "1000" None) (world_with_line "08:00" "20:00" []).
Proof.
  apply (times_without_colon_skip_validation epoch (trip "0900" "1000" None)
           (world_with_line "08:00" "20:00" []) "0900" "1000" "L1"
           (Prisma.mkLigne "L1" (Some "08:00"%string) (Some "20:00"%string))
           eq_refl eq_refl eq_refl ltac:(discriminate) ltac:(discriminate)
           eq_refl eq_refl eq_refl ltac:(vm_compute; reflexivity)
           ltac:(intros _; split; reflexivity)
           ltac:(discriminate)).
Defined.

(** A check-in that names no validator. *)
Lemma checkin_missing_fields_at_no_validator :
  post_pointages
    (mkPointageBody (Some "id0"%string) (Some "c1"%string) None None None None)
    checkin_world
  = (mkResponse 400 (MissingJson "Champs requis manquants" ["validatedBy"%string]),
     checkin_world).
Proof.
  exact (proj2 (checkin_missing_fields
                  (mkPointageBody (Some "id0"%string) (Some "c1"%string)
                                  None None None None)
                  checkin_world)
               ltac:(discriminate)).
Defined.

(** A check-in for a trip the empty store does not hold. *)
Lemma checkin_unknown_service_at_empty_store :
  let w := mkWorld (mkDb ∅ [] []) [] [] 0 in
  status (fst (post_pointages checkin w)) = 400
  ∧ db (snd (post_pointages checkin w)) = db w
  ∧ log (snd (post_pointages checkin w)) = log w ++ [ServiceUpdate].
Proof.
  cbv zeta. apply checkin_unknown_service; [reflexivity|]. left. reflexivity.
Defined.


(** The planned trip of Line L1, open 08:00 to 20:00, moved to 23:00. *)
Lemma update_at_23h :
  let w := world_with_line "08:00" "20:00" [planned_trip] in
  let b := Updates.mkServiceUpdateBody (Some "23:00"%string) None None None in
  fst (Updates.put_services_hierarchie "id0" b w)
  = json (ServiceJson
            (Prisma.mkService "id0" (Some "S1"%string) (Some "L1"%string)
               "23:00" "10:00" "Planifiée" 1735689600000) false)
  ∧ log (snd (Updates.put_services_hierarchie "id0" b w)) = [ServiceUpdate].
Proof.
  cbv zeta.
  destruct (update_writes_without_validation "id0"
              (Updates.mkServiceUpdateBody (Some "23:00"%string) None None None)
              (world_with_line "08:00" "20:00" [planned_trip])
              [] planned_trip [] eq_refl) as (H & _).
  - intros x Hx. inversion Hx.
  - reflexivity.
  - discriminate.
  - rewrite H. split; reflexivity.
Defined.

Lemma update_unknown_trip_at_empty_store :
  let w := world_with_line "08:00" "20:00" [] in
  let b := Updates.mkServiceUpdateBody (Some "23:00"%string) None None None in
  status (fst (Updates.put_services_hierarchie "id0" b w)) = 400
  ∧ db (snd (Updates.put_services_hierarchie "id0" b w)) = db w.
Proof.
  cbv zeta. apply update_unknown_trip. intros x Hx. inversion Hx.
Defined.

End MoreInstances.

Section MoreInstancesReadiness.
Import Readiness Routes.

Lemma services_path_off_allowlist : "/api/services"%string ∉ noDbPaths.
Proof. apply (bool_decide_unpack _). vm_compute. exact I. Qed.

Lemma routes_reached_at_health :
  (before_routes cors_with_options json_accepts false (mkRequest "GET" "/health") = Next
   ↔ false = true ∨ "/health"%string ∈ noDbPaths)
  ∧ ("/health"%string ∈ noDbPaths ↔
     "/health"%string = "/"%string ∨ "/health"%string = "/health"%string
     ∨ "/health"%string = "/api/today"%string
     ∨ "/health"%string = "/api/server-time"%string
     ∨ "/health"%string = "/api/cors-test"%string).
Proof.
  apply (routes_reached_iff_ready_or_allowlisted cors_with_options json_accepts
           false (mkRequest "GET" "/health"));
    [discriminate|reflexivity|reflexivity].
Defined.

Lemma list_handler_at_services :
  get_list cors_with_options json_accepts false true (mkRequest "GET" "/api/services")
  ≠ NotReady503
  ∧ (before_routes cors_with_options json_accepts false
       (mkRequest "GET" "/api/services") = Next → false = true).
Proof.
  apply (list_handler_check_is_dead cors_with_options json_accepts false true
           (mkRequest "GET" "/api/services")).
  exact services_path_off_allowlist.
Defined.

Lemma failed_probe_at_services :
  prismaReady (run true false [mkRequest "GET" "/health"]) = false
  ∧ before_routes cors_with_options json_accepts
      (prismaReady (run true false [mkRequest "GET" "/health"]))
      (mkRequest "GET" "/api/services") ≠ Next
  ∧ health (run true false [mkRequest "GET" "/health"]) true = 200.
Proof.
  apply (failed_probe_is_final cors_with_options json_accepts true
           [mkRequest "GET" "/health"] (mkRequest "GET" "/api/services")).
  exact services_path_off_allowlist.
Defined.

End MoreInstancesReadiness.

Section MoreInstancesStops.
Import Arrets.


(** Three stops for itinerary T1, one after the other. *)
Lemma consecutive_stops_at_three :
  let b := mkArretBody (Some "T1"%string) (Some "Gare"%string) None None None in
  ordres "T1" (Client.store (post_arrets_all [b; b; b] (Client.mkWorld [] [] [])))
  = [1; 2; 3].
Proof.
  cbv zeta.
  apply (consecutive_stops_are_numbered
           [mkArretBody (Some "T1"%string) (Some "Gare"%string) None None None;
            mkArretBody (Some "T1"%string) (Some "Gare"%string) None None None;
            mkArretBody (Some "T1"%string) (Some "Gare"%string) None None None]
           (Client.mkWorld [] [] []) "T1");
    [repeat constructor | discriminate | reflexivity | reflexivity].
Defined.

End MoreInstancesStops.

Section MoreInstancesCalendars.
Import Calendars.

(** Line A has no calendar, Line B has one. *)
Lemma init_calendars_at_two_lines :
  let w := Client.mkWorld [mkLigne "A" None; mkLigne "B" (Some "cal"%string)] [] []
           : World in
  fst (post_init_calendars "default" w) = InitJson (message 1)
  ∧ Client.store (snd (post_init_calendars "default" w))
    = [mkLigne "A" (Some "default"%string); mkLigne "B" (Some "cal"%string)].
Proof.
  cbv zeta.
  destruct (init_calendars_fills_the_missing "default"
              (Client.mkWorld [mkLigne "A" None; mkLigne "B" (Some "cal"%string)] [] []))
    as (H1 & H2 & _).
  - reflexivity.
  - cbn. repeat constructor; rewrite ?elem_of_cons, ?elem_of_nil;
      intros H; repeat destruct H as [H|H]; discriminate || exact H.
  - split; [exact H1 | exact H2].
Defined.

Lemma init_calendars_twice_at_two_lines :
  let w := Client.mkWorld [mkLigne "A" None; mkLigne "B" (Some "cal"%string)] [] []
           : World in
  let w1 := snd (post_init_calendars "default" w) in
  fst (post_init_calendars "default" w1) = InitJson (message 0)
  ∧ Client.store (snd (post_init_calendars "default" w1)) = Client.store w1
  ∧ Client.calls (snd (post_init_calendars "default" w1))
    = Client.calls w1 ++ [LigneFindMany].
Proof.
  cbv zeta.
  apply (init_calendars_twice "default"
           (Client.mkWorld [mkLigne "A" None; mkLigne "B" (Some "cal"%string)] [] [])).
  - discriminate.
  - reflexivity.
  - cbn. repeat constructor; rewrite ?elem_of_cons, ?elem_of_nil;
      intros H; repeat destruct H as [H|H]; discriminate || exact H.
Defined.

(** Lines A and B have no calendar; the store rejects the second update. *)
Lemma init_calendars_cut_short_at_two_lines :
  let w := Client.mkWorld [mkLigne "A" None; mkLigne "B" None] [false; false; true] []
           : World in
  fst (post_init_calendars "default" w)
  = ErrorJson 400 "PrismaClientKnownRequestError"
  ∧ Client.store (snd (post_init_calendars "default" w))
    = [mkLigne "A" (Some "default"%string); mkLigne "B" None].
Proof.
  cbv zeta.
  destruct (init_calendars_cut_short "default"
              (Client.mkWorld [mkLigne "A" None; mkLigne "B" None]
                 [false; false; true] []) 1 [])
    as (H1 & H2 & _).
  - repeat constructor.
  - cbn. repeat constructor; rewrite ?elem_of_cons, ?elem_of_nil;
      intros H; repeat destruct H as [H|H]; discriminate || exact H.
  - cbn. lia.
  - reflexivity.
  - split; [exact H1 | exact H2].
Defined.

End MoreInstancesCalendars.

Section MoreInstancesStats.
Import DailyStats.

(** Three check-ins, the second validated by a role named
    ["constructor"]: the two of the ["Régulateur"] are counted, and under
    ["constructor"] the tally holds a text, not a count. *)
Lemma tallies_count_at_constructor :
  let p role :=
    mkPointage "c1" None false false (Some "Bus"%string) (Some role) None in
  let day := [p "Régulateur"; p "constructor"; p "Régulateur"]%string in
  validatedByStats day !! "Régulateur"%string = Some (Count 2)
  ∧ validatedByStats day !! "constructor"%string = Some (Spoilt 1)
  ∧ vehicleTypes day !! "Bus"%string = Some (Count 3)
  ∧ sum_values counted (validatedByStats day) = 2%nat.
Proof.
  cbv zeta.
  set (p role := mkPointage "c1" None false false (Some "Bus"%string) (Some role) None).
  set (day := [p "Régulateur"; p "constructor"; p "Régulateur"]%string).
  split; [|split; [|split]].
  - exact (proj1 (proj2 (tallies_count day "Régulateur"))).
  - exact (proj1 (proj2 (tallies_count day "constructor"))).
  - exact (proj1 (tallies_count day "Bus")).
  - exact (proj1 (proj2 (proj2 (proj2 (tallies_count day "Bus"))))).
Defined.

(** Three trips of the day, one of them starting at ["constructor:00"]:
    the hour ["09"] has its two trips and the check-in of one of them,
    and ["constructor"] has no entry. *)
Lemma hourly_distribution_at_constructor :
  let s h := mkService (Some h) None in
  let p h := mkPointage "c1" None false false None None (Some (s h)) in
  let trips := [s "09:00"; s "constructor:00"; s "09:30"]%string in
  let checkins := [p "09:30"; p "constructor:00"]%string in
  hourlyDistribution trips checkins !! "09"%string = Some (mkHourStat 2 1)
  ∧ hourlyDistribution trips checkins !! "constructor"%string = None.
Proof.
  cbv zeta. split.
  - exact (hourly_distribution_counts _ _ "09").
  - exact (hourly_distribution_counts _ _ "constructor").
Defined.

End MoreInstancesStats.
